(** * csdfpy.dimensions: the Dimension facade and its LabeledDimension subtype

    A shallow embedding of [csdfpy/dimensions/__init__.py] and
    [csdfpy/dimensions/labeled.py].  Python objects are records of slots,
    methods are computations in a state-and-exception monad, dictionaries
    are insertion-ordered association lists.  The modules [linear],
    [monotonic] and [utils] and the quantity service are not among the
    sources: what the facade uses of them is modelled from the spec, and
    every such definition says so. *)

From Stdlib Require Import ZArith QArith List String Ascii Bool Lia.
Import ListNotations.
Open Scope string_scope.
Open Scope Z_scope.

Set Implicit Arguments.
Set Warnings "-register-all".

(* ================================================================== *)
(** ** Python values *)
(* ================================================================== *)

(** The objects that reach the dimension code.  [PyArray] is a numpy
    array, kept as the object it was built from: [PyArray (PyList l)] is a
    one-dimensional array, any other payload a zero-dimensional one.  The
    promotion of mixed element types to one dtype is outside the model. *)
Inductive value : Type :=
| PyNone
| PyBool (b : bool)
| PyInt (n : Z)
| PyStr (s : string)
| PyList (items : list value)
| PyDict (items : list (string * value))
| PyArray (data : value).

Definition dict := list (string * value).

(** The exception classes the code raises, without their messages.
    [UnitsError] is the quantity service's dimensionality mismatch. *)
Inductive exn : Type :=
| ValueError
| KeyError
| TypeError
| AttributeError
| UnitsError.

Inductive result (A : Type) : Type :=
| Ok (a : A)
| Raise (e : exn).
Arguments Ok {A} a.
Arguments Raise {A} e.

Definition rbind {A B} (r : result A) (k : A -> result B) : result B :=
  match r with
  | Ok a => k a
  | Raise e => Raise e
  end.

Definition raises {A} (r : result A) : bool :=
  match r with Ok _ => false | Raise _ => true end.

(** *** Dictionaries *)

(** [k in d.keys()] *)
Fixpoint dict_mem (k : string) (d : dict) : bool :=
  match d with
  | [] => false
  | (k', _) :: d' => if String.eqb k k' then true else dict_mem k d'
  end.

(** [d[k]]; a missing key raises [KeyError]. *)
Fixpoint dict_get (k : string) (d : dict) : result value :=
  match d with
  | [] => Raise KeyError
  | (k', v) :: d' => if String.eqb k k' then Ok v else dict_get k d'
  end.

(** [d[k] = v]: an existing key keeps its position, a new one is appended. *)
Fixpoint dict_set (k : string) (v : value) (d : dict) : dict :=
  match d with
  | [] => [(k, v)]
  | (k', v') :: d' =>
      if String.eqb k k' then (k', v) :: d' else (k', v') :: dict_set k v d'
  end.

Definition dict_keys (d : dict) : list string := map fst d.

(** [v.keys()]: only a dictionary has the method. *)
Definition py_keys (v : value) : result (list string) :=
  match v with
  | PyDict d => Ok (dict_keys d)
  | _ => Raise AttributeError
  end.

(** [v[k]] for a string key. *)
Definition py_getitem (v : value) (k : string) : result value :=
  match v with
  | PyDict d => dict_get k d
  | _ => Raise TypeError
  end.

(** [v[k] = x] for a string key. *)
Definition py_setitem (v : value) (k : string) (x : value) : result value :=
  match v with
  | PyDict d => Ok (PyDict (dict_set k x d))
  | _ => Raise TypeError
  end.

(** *** Builtins and numpy *)

(** [len(v)].  A string is kept as its bytes: its length here is the
    number of characters for ASCII text. *)
Definition py_len (v : value) : result Z :=
  match v with
  | PyStr s => Ok (Z.of_nat (String.length s))
  | PyList l => Ok (Z.of_nat (List.length l))
  | PyDict d => Ok (Z.of_nat (List.length d))
  | PyArray (PyList l) => Ok (Z.of_nat (List.length l))
  | _ => Raise TypeError
  end.

(** [np.asarray(v)]: an array is returned as it is, anything else becomes
    the data of a new array.  This is what numpy does for a list of
    strings, for which the array has one element per string.  numpy
    refuses a nested list whose rows differ in length, brings the
    elements of a list of mixed types to one dtype and drops NUL
    characters at the end of a string; none of this is modelled, and the
    properties that go through a constructed array are stated for
    [label_list]s. *)
Definition np_asarray (v : value) : value :=
  match v with
  | PyArray _ => v
  | _ => PyArray v
  end.

(** [a.tolist()] *)
Definition tolist (a : value) : result value :=
  match a with
  | PyArray data => Ok data
  | _ => Raise AttributeError
  end.

(** *** Objects handed out by a read

    A read hands out an object: its content, and where the object lives.
    [Stored name] is the very object held in the slot [name] of the
    instance that was read; [Fresh] is an object of the caller that shares
    nothing with the instance. *)
Inductive origin : Type :=
| Stored (slot : string)
| Fresh.

Record handle : Type := mkHandle {
  content : value;
  origin_of : origin
}.

(** [copy.deepcopy(h)]: a new object with the content of [h]. *)
Definition deepcopy (h : handle) : handle := mkHandle (content h) Fresh.

(** A place inside an object: an index into a list, a key of a
    dictionary, the data of an array, one after the other. *)
Inductive step : Type :=
| Item (i : nat)
| Entry (k : string)
| Data.

Definition path := list step.

Fixpoint update_nth {A} (i : nat) (f : A -> A) (l : list A) : list A :=
  match l, i with
  | [], _ => []
  | a :: l', O => f a :: l'
  | a :: l', S j => a :: update_nth j f l'
  end.

Fixpoint update_key (k : string) (f : value -> value)
  (d : list (string * value)) : list (string * value) :=
  match d with
  | [] => []
  | (k', v) :: d' =>
      if String.eqb k k' then (k', f v) :: d' else (k', v) :: update_key k f d'
  end.

(** The object [v] after the object at place [p] inside it was changed in
    place to [new]; a place that does not exist changes nothing. *)
Fixpoint graft (p : path) (new : value) (v : value) : value :=
  match p with
  | [] => new
  | st :: p' =>
      match st, v with
      | Item i, PyList l => PyList (update_nth i (graft p' new) l)
      | Entry k, PyDict d => PyDict (update_key k (graft p' new) d)
      | Data, PyArray a => PyArray (graft p' new a)
      | _, _ => v
      end
  end.

Definition isinstance_str (v : value) : bool :=
  match v with PyStr _ => true | _ => false end.

(** [sequence[:n]] *)
Definition slice_to {A} (n : Z) (l : list A) : list A :=
  if 0 <=? n then firstn (Z.to_nat n) l
  else firstn (List.length l - Z.to_nat (- n)) l.

(** Whitespace of [str.strip()] among the ASCII characters.  White space
    beyond ASCII (U+0085, U+00A0, ...) is not recognised: the properties
    that depend on what is stripped are stated for [ascii_text]. *)
Definition is_space (c : ascii) : bool :=
  let n := nat_of_ascii c in
  (Nat.eqb n 32 || (Nat.leb 9 n && Nat.leb n 13)
   || (Nat.leb 28 n && Nat.leb n 31))%bool.

Fixpoint lstrip (s : string) : string :=
  match s with
  | EmptyString => EmptyString
  | String c r => if is_space c then lstrip r else s
  end.

Fixpoint rstrip (s : string) : string :=
  match s with
  | EmptyString => EmptyString
  | String c r =>
      match rstrip r with
      | EmptyString => if is_space c then EmptyString else String c EmptyString
      | r' => String c r'
      end
  end.

(** [v.strip()]: only a string has the method. *)
Definition py_strip (v : value) : result string :=
  match v with
  | PyStr s => Ok (lstrip (rstrip s))
  | _ => Raise AttributeError
  end.

(** *** The values the models of numpy and of the string methods are exact on *)

(** Text of ASCII characters only: one byte is one character, and the
    white space of [str.strip()] is [is_space]. *)
Definition ascii_text (s : string) : bool :=
  forallb (fun c => Nat.ltb (nat_of_ascii c) 128) (list_ascii_of_string s).

(** A label: a string without the NUL character. *)
Definition is_label (v : value) : bool :=
  match v with
  | PyStr s =>
      forallb (fun c => negb (Nat.eqb (nat_of_ascii c) 0))
              (list_ascii_of_string s)
  | _ => false
  end.

(** A list of labels: [np.asarray] builds a one-dimensional array that
    holds exactly these strings, and [tolist()] gives them back. *)
Definition label_list (items : list value) : bool := forallb is_label items.

(* ================================================================== *)
(** ** Methods: state and exceptions *)
(* ================================================================== *)

(** A method runs on the object [self] of type [S]; it leaves a state
    behind also when it raises, since assignments made before the
    exception are kept. *)
Definition M (S A : Type) : Type := S -> S * result A.

Definition ret {S A} (a : A) : M S A := fun s => (s, Ok a).
Definition throw {S A} (e : exn) : M S A := fun s => (s, Raise e).
Definition bind {S A B} (m : M S A) (k : A -> M S B) : M S B :=
  fun s => match m s with
           | (s', Ok a) => k a s'
           | (s', Raise e) => (s', Raise e)
           end.
Definition get {S} : M S S := fun s => (s, Ok s).
Definition modify {S} (f : S -> S) : M S unit := fun s => (f s, Ok tt).
Definition liftR {S A} (r : result A) : M S A := fun s => (s, r).

Declare Scope method_scope.
Delimit Scope method_scope with method.
Notation "x <- m ;; k" := (bind m (fun x => k))
  (at level 61, m at next level, right associativity) : method_scope.
Notation "m ;;; k" := (bind m (fun _ => k))
  (at level 61, right associativity) : method_scope.

(* ================================================================== *)
(** ** labeled.py: class LabeledDimension *)
(* ================================================================== *)

Module Labeled.

Local Open Scope method_scope.

(** [__slots__ = ("_count", "_labels", "_label", "_description",
    "_application")]; a slot holds [None] until it is first assigned. *)
Record LabeledDimension : Type := mkLabeled {
  _count : option Z;
  _labels : option value;
  _label : option value;
  _description : option value;
  _application : option value
}.

Definition _type : string := "labeled".

Definition unset : LabeledDimension := mkLabeled None None None None None.

Definition set__count (n : Z) (self : LabeledDimension) :=
  mkLabeled (Some n) (_labels self) (_label self) (_description self)
            (_application self).
Definition set__labels (v : value) (self : LabeledDimension) :=
  mkLabeled (_count self) (Some v) (_label self) (_description self)
            (_application self).
Definition set__label (v : value) (self : LabeledDimension) :=
  mkLabeled (_count self) (_labels self) (Some v) (_description self)
            (_application self).
Definition set__description (v : value) (self : LabeledDimension) :=
  mkLabeled (_count self) (_labels self) (_label self) (Some v)
            (_application self).
Definition set__application (v : value) (self : LabeledDimension) :=
  mkLabeled (_count self) (_labels self) (_label self) (_description self)
            (Some v).

(** The slots that hold an object, by name. *)
Definition slot_get (name : string) (self : LabeledDimension) : option value :=
  if String.eqb name "_labels" then _labels self
  else if String.eqb name "_label" then _label self
  else if String.eqb name "_description" then _description self
  else if String.eqb name "_application" then _application self
  else None.

Definition slot_set (name : string) (v : value) (self : LabeledDimension)
  : LabeledDimension :=
  if String.eqb name "_labels" then set__labels v self
  else if String.eqb name "_label" then set__label v self
  else if String.eqb name "_description" then set__description v self
  else if String.eqb name "_application" then set__application v self
  else self.

(** [self._count]; a slot that was never assigned raises
    [AttributeError]. *)
Definition read__count : M LabeledDimension Z :=
  fun self => match _count self with
              | Some n => (self, Ok n)
              | None => (self, Raise AttributeError)
              end.

(** [self.<slot>]: the object held in the slot itself. *)
Definition read_slot (name : string) : M LabeledDimension handle :=
  fun self => match slot_get name self with
              | Some v => (self, Ok (mkHandle v (Stored name)))
              | None => (self, Raise AttributeError)
              end.

(** [label] property *)
Definition label : M LabeledDimension handle :=
  h <- read_slot "_label" ;; ret (deepcopy h).

Definition set_label (label : value) : M LabeledDimension unit :=
  if isinstance_str label then modify (set__label label)
  else throw TypeError.

(** [description] property *)
Definition description : M LabeledDimension handle :=
  h <- read_slot "_description" ;; ret (deepcopy h).

Definition set_description (value : value) : M LabeledDimension unit :=
  if isinstance_str value then modify (set__description value)
  else throw ValueError.

Definition _is_quantitative : M LabeledDimension bool := ret false.

(** [labels] property *)
Definition labels : M LabeledDimension handle :=
  h <- read_slot "_labels" ;; ret (deepcopy h).

Definition set_labels (labels : value) : M LabeledDimension unit :=
  modify (set__labels (np_asarray labels)) ;;;
  n <- liftR (py_len labels) ;;
  modify (set__count n).

(** [application] property *)
Definition application : M LabeledDimension handle :=
  h <- read_slot "_application" ;; ret (deepcopy h).

Definition set_application (value : value) : M LabeledDimension unit :=
  modify (set__application value).

Definition _get_python_dictionary : M LabeledDimension dict :=
  let dictionary := [("type", PyStr _type)] in
  d <- read_slot "_description" ;;
  stripped <- liftR (py_strip (content d)) ;;
  let dictionary :=
    if String.eqb stripped "" then dictionary
    else dict_set "description" (PyStr stripped) dictionary in
  a <- read_slot "_labels" ;;
  l <- liftR (tolist (content a)) ;;
  ret (dict_set "labels" l dictionary).

(** [LabeledDimension(labels, label, description, application, **kwargs)]:
    the keyword arguments that are no parameter are collected in [kwargs]
    and not used. *)
Definition __init__ (labels label description application : value)
  : M LabeledDimension unit :=
  modify (set__description description) ;;;
  modify (set__application application) ;;;
  modify (set__label label) ;;;
  set_labels labels.

(** The constructor call: the object exists only if [__init__] returns. *)
Definition new (labels label description application : value)
  : result LabeledDimension :=
  match __init__ labels label description application unset with
  | (self, Ok _) => Ok self
  | (_, Raise e) => Raise e
  end.

(** The names an instance answers to: its slots, the class attribute
    [_type], the four properties and the two methods. *)
Definition attribute_names : list string :=
  ["_count"; "_labels"; "_label"; "_description"; "_application";
   "_type"; "label"; "description"; "labels"; "application";
   "_is_quantitative"; "_get_python_dictionary"].

Definition hasattr (name : string) : bool :=
  existsb (String.eqb name) attribute_names.

(** [self.name] for a data attribute or a property; any other name is
    looked up in vain. *)
Definition getattr (name : string) : M LabeledDimension handle :=
  if String.eqb name "_count" then
    n <- read__count ;; ret (mkHandle (PyInt n) Fresh)
  else if String.eqb name "_labels" then read_slot "_labels"
  else if String.eqb name "_label" then read_slot "_label"
  else if String.eqb name "_description" then read_slot "_description"
  else if String.eqb name "_application" then read_slot "_application"
  else if String.eqb name "_type" then ret (mkHandle (PyStr _type) Fresh)
  else if String.eqb name "label" then label
  else if String.eqb name "description" then description
  else if String.eqb name "labels" then labels
  else if String.eqb name "application" then application
  else throw AttributeError.

(** [self.name( *args)] for a method. *)
Definition call_method (name : string) (args : list value)
  : M LabeledDimension value :=
  if String.eqb name "_is_quantitative" then
    match args with
    | [] => b <- _is_quantitative ;; ret (PyBool b)
    | _ => throw TypeError
    end
  else if String.eqb name "_get_python_dictionary" then
    match args with
    | [] => d <- _get_python_dictionary ;; ret (PyDict d)
    | _ => throw TypeError
    end
  else throw AttributeError.


(** The instance after the object behind [h] was changed in place at
    [p]: the change is seen by the instance when [h] is the object in one
    of its slots. *)
Definition write_through (h : handle) (p : path) (new : value)
  (self : LabeledDimension) : LabeledDimension :=
  match origin_of h with
  | Fresh => self
  | Stored name =>
      match slot_get name self with
      | Some v => slot_set name (graft p new v) self
      | None => self
      end
  end.

End Labeled.

(* ================================================================== *)
(** ** The quantity service *)
(* ================================================================== *)

Module Units.

(** Modelled from the spec: the quantity service (astropy and
    [csdfpy.units]) is an external collaborator.  A unit has a symbol, a
    factor to the base unit of its family and the name of the physical
    quantity it measures; magnitudes are exact rationals, kept reduced. *)
Record Unit : Type := mkUnit {
  symbol : string;
  factor : Q;
  family : string
}.

Record Quantity : Type := mkQuantity {
  magnitude : Q;
  qunit : Unit
}.

Record QuantityArray : Type := mkArray {
  magnitudes : list Q;
  array_unit : Unit
}.

(** Modelled from the spec: the units of the examples in the docstrings
    and tests. *)
Definition unit_table : list Unit :=
  [ mkUnit "" 1 "dimensionless";
    mkUnit "m" 1 "length";
    mkUnit "cm" (1 # 100) "length";
    mkUnit "km" 1000 "length";
    mkUnit "s" 1 "time";
    mkUnit "T" 1 "magnetic flux density";
    mkUnit "mT" (1 # 1000) "magnetic flux density";
    mkUnit "G" (1 # 10000) "magnetic flux density" ].

(** Modelled from the spec: the unit behind a unit symbol. *)
Definition find_unit (sym : string) : option Unit :=
  find (fun u => String.eqb (symbol u) sym) unit_table.

(** Modelled from the spec: a decimal digit of a numeric value. *)
Definition digit (c : ascii) : option Z :=
  let n := nat_of_ascii c in
  if (Nat.leb 48 n && Nat.leb n 57)%bool then Some (Z.of_nat n - 48)
  else None.

(** Modelled from the spec: the digits at the head of [s], read into
    [acc], and what follows. *)
Fixpoint digits (s : string) (acc : Z) (seen : bool)
  : option (Z * string) :=
  match s with
  | EmptyString => if seen then Some (acc, s) else None
  | String c r =>
      match digit c with
      | Some d => digits r (10 * acc + d) true
      | None => if seen then Some (acc, s) else None
      end
  end.

(** Modelled from the spec: a quantity-string is
    ["<numeric value> <unit symbol>"].  The unit grammar is out of scope;
    integer values over [unit_table] are read, a bare number is
    dimensionless. *)
Definition parse (s : string) : result Quantity :=
  match digits s 0 false with
  | None => Raise ValueError
  | Some (n, rest) =>
      let sym := match rest with
                 | String " " r => r
                 | _ => rest
                 end in
      match find_unit sym with
      | Some u => Ok (mkQuantity (inject_Z n) u)
      | None => Raise ValueError
      end
  end.

(** Modelled from the spec: a quantity is given as a quantity-string; a
    value of another type is a type error. *)
Definition quantity_of (v : value) : result Quantity :=
  match v with
  | PyStr s => parse s
  | _ => Raise TypeError
  end.

(** Modelled from the spec: two units are compatible when they measure
    the same physical quantity. *)
Definition same_family (u v : Unit) : bool :=
  String.eqb (family u) (family v).

(** Modelled from the spec: a magnitude in unit [u], expressed in a
    compatible unit [v]. *)
Definition convert (x : Q) (u v : Unit) : Q :=
  Qred (x * factor u / factor v).

(** Modelled from the spec: [q.to(u)], which raises on incompatible
    dimensionality. *)
Definition to (q : Quantity) (u : Unit) : result Quantity :=
  if same_family (qunit q) u
  then Ok (mkQuantity (convert (magnitude q) (qunit q) u) u)
  else Raise UnitsError.

(** Modelled from the spec: [a.to(u)] for an array. *)
Definition array_to (a : QuantityArray) (u : Unit) : result QuantityArray :=
  if same_family (array_unit a) u
  then Ok (mkArray (map (fun x => convert x (array_unit a) u)
                        (magnitudes a)) u)
  else Raise UnitsError.

(** Modelled from the spec: [a + q]; the sum is in the unit of the left
    operand. *)
Definition array_add (a : QuantityArray) (q : Quantity)
  : result QuantityArray :=
  rbind (to q (array_unit a)) (fun q' =>
  Ok (mkArray (map (fun x => Qred (x + magnitude q')) (magnitudes a))
              (array_unit a))).

(** Modelled from the spec: [index * q] *)
Definition scale (index : list Z) (q : Quantity) : QuantityArray :=
  mkArray (map (fun j => Qred (inject_Z j * magnitude q)) index) (qunit q).

(** Modelled from the spec: [a[:n]] for a quantity array. *)
Definition array_slice (a : QuantityArray) (n : Z) : QuantityArray :=
  mkArray (slice_to n (magnitudes a)) (array_unit a).

End Units.

(** Modelled from the spec: [csdfpy.utils.validate] is not among the
    sources.  [validate(value, "count", int)] returns an integer as it
    is and raises a type error for a value of another type. *)
Definition validate_int (v : value) : result Z :=
  match v with
  | PyInt n => Ok n
  | _ => Raise TypeError
  end.

(* ================================================================== *)
(** ** The index array of a linear dimension *)
(* ================================================================== *)

(** [[lo, lo+1, ..., lo+len-1]] *)
Fixpoint zrange (lo : Z) (len : nat) : list Z :=
  match len with
  | O => []
  | S k => lo :: zrange (lo + 1) k
  end.

(** Modelled from the spec: [linear.py] is not among the sources.  The
    index array for count [N]: [[0, 1, ..., N-1]] without FFT output
    order; with it [[0, ..., N/2-1, -N/2, ..., -1]] for even [N] and, with
    [T = N-1], [[0, ..., T/2, -T/2, ..., -1]] for odd [N]. *)
Definition index_array (N : Z) (fft_output_order : bool) : list Z :=
  if fft_output_order then
    if Z.even N then
      zrange 0 (Z.to_nat (N / 2)) ++ zrange (- (N / 2)) (Z.to_nat (N / 2))
    else
      let T := N - 1 in
      zrange 0 (Z.to_nat (T / 2 + 1)) ++ zrange (- (T / 2)) (Z.to_nat (T / 2))
  else zrange 0 (Z.to_nat N).

Fixpoint mapR {A B} (f : A -> result B) (l : list A) : result (list B) :=
  match l with
  | [] => Ok []
  | a :: l' =>
      rbind (f a) (fun b => rbind (mapR f l') (fun bs => Ok (b :: bs)))
  end.

(* ================================================================== *)
(** ** The subtypes that are not among the sources *)
(* ================================================================== *)

Module Linear.

Import Units.
Local Open Scope method_scope.

(** Modelled from the spec: [linear.py] is not among the sources.  The
    record has the attributes the facade reads ([_count], [_coordinates],
    [_unit], [coordinates_offset]) and those of the spec's data model that
    the claims are about; period, quantity name and the reciprocal record
    are left out.  [_coordinates] is the array [_get_coordinates]
    leaves, the index array times the increment; the facade adds the
    coordinates offset on every read. *)
Record LinearDimension : Type := mkLinear {
  _count : Z;
  _increment : Quantity;
  _coordinates_offset : Quantity;
  _origin_offset : Quantity;
  _fft_output_order : bool;
  _unit : Unit;
  _coordinates : QuantityArray;
  _label : value;
  _description : value;
  _application : value
}.

(** Modelled from the spec: the literal of the variant. *)
Definition _type : string := "linear".

(** Modelled from the spec: assignments to the slots [_count] and
    [_coordinates]. *)
Definition set__count (n : Z) (self : LinearDimension) :=
  mkLinear n (_increment self) (_coordinates_offset self)
    (_origin_offset self) (_fft_output_order self) (_unit self)
    (_coordinates self) (_label self) (_description self)
    (_application self).

Definition set__coordinates (a : QuantityArray) (self : LinearDimension) :=
  mkLinear (_count self) (_increment self) (_coordinates_offset self)
    (_origin_offset self) (_fft_output_order self) (_unit self) a
    (_label self) (_description self) (_application self).

(** Modelled from the spec: [_get_coordinates()] regenerates the array
    [index_array(count, fft_output_order) * increment] in the unit of the
    dimension. *)
Definition _get_coordinates : M LinearDimension unit :=
  self <- get ;;
  inc <- liftR (to (_increment self) (_unit self)) ;;
  modify (set__coordinates
            (scale (index_array (_count self) (_fft_output_order self)) inc)).

(** Modelled from the spec: an offset that was not given is zero in the
    unit of the increment; a given one must have the physical
    dimensionality of the increment. *)
Definition offset_of (v : value) (u : Unit) : result Quantity :=
  match v with
  | PyNone => Ok (mkQuantity 0 u)
  | _ => rbind (quantity_of v) (fun q =>
         if same_family (qunit q) u then Ok q else Raise UnitsError)
  end.

(** Modelled from the spec: [fft_output_order] is a boolean. *)
Definition bool_of (v : value) : result bool :=
  match v with
  | PyBool b => Ok b
  | _ => Raise TypeError
  end.

(** Modelled from the spec: the call of [LinearDimension] on the entries
    of [default].  The count is an integer of at least one, the increment
    a quantity, the offsets quantities of the increment's physical
    dimensionality. *)
Definition new (default : dict) : result LinearDimension :=
  rbind (dict_get "count" default) (fun c =>
  rbind (validate_int c) (fun count =>
  if count <? 1 then Raise ValueError else
  rbind (dict_get "increment" default) (fun i =>
  rbind (quantity_of i) (fun increment =>
  let u := qunit increment in
  rbind (dict_get "coordinates_offset" default) (fun co =>
  rbind (offset_of co u) (fun coordinates_offset =>
  rbind (dict_get "origin_offset" default) (fun oo =>
  rbind (offset_of oo u) (fun origin_offset =>
  rbind (dict_get "fft_output_order" default) (fun f =>
  rbind (bool_of f) (fun fft =>
  rbind (dict_get "label" default) (fun label =>
  rbind (dict_get "description" default) (fun description =>
  rbind (dict_get "application" default) (fun application =>
  let self := mkLinear count increment coordinates_offset origin_offset
                fft u (mkArray [] u) label description application in
  match _get_coordinates self with
  | (self', Ok _) => Ok self'
  | (_, Raise e) => Raise e
  end))))))))))))).

End Linear.

Module Monotonic.

Import Units.
Local Open Scope method_scope.

(** Modelled from the spec: [monotonic.py] is not among the sources.
    [_values] is the sequence of quantity-strings as given,
    [_coordinates] the parsed array in the unit of the dimension, and the
    count the length of that array; period, quantity name and the
    reciprocal record are left out. *)
Record MonotonicDimension : Type := mkMonotonic {
  _count : Z;
  _values : value;
  _coordinates : QuantityArray;
  _unit : Unit;
  _origin_offset : Quantity;
  _label : value;
  _description : value;
  _application : value
}.

(** Modelled from the spec: the literal of the variant. *)
Definition _type : string := "monotonic".

(** Modelled from the spec: assignment to the slot [_count], and the
    replacement of values, array and count by the [values] setter. *)
Definition set__count (n : Z) (self : MonotonicDimension) :=
  mkMonotonic n (_values self) (_coordinates self) (_unit self)
    (_origin_offset self) (_label self) (_description self)
    (_application self).

Definition set_array (v : value) (a : QuantityArray)
  (self : MonotonicDimension) :=
  mkMonotonic (Z.of_nat (List.length (magnitudes a))) v a (_unit self)
    (_origin_offset self) (_label self) (_description self)
    (_application self).

(** Modelled from the spec: the quantities of a list of quantity-strings,
    brought to unit [u]; one of another physical dimensionality is a
    mismatch. *)
Definition parse_values (v : value) (u : Unit) : result QuantityArray :=
  match v with
  | PyList items =>
      rbind (mapR (fun x => rbind (quantity_of x) (fun q => to q u)) items)
            (fun qs => Ok (mkArray (map magnitude qs) u))
  | _ => Raise TypeError
  end.

(** Modelled from the spec: the values of a monotonic dimension are
    strictly increasing or strictly decreasing.  Here, strictly
    increasing. *)
Fixpoint ascending (l : list Q) : bool :=
  match l with
  | x :: ((y :: _) as r) => (negb (Qle_bool y x) && ascending r)%bool
  | _ => true
  end.

(** Modelled from the spec: the same, downwards. *)
Fixpoint descending (l : list Q) : bool :=
  match l with
  | x :: ((y :: _) as r) => (negb (Qle_bool x y) && descending r)%bool
  | _ => true
  end.

(** Modelled from the spec: strictly monotonic, in either direction. *)
Definition strictly_monotonic (l : list Q) : bool :=
  (ascending l || descending l)%bool.

(** Modelled from the spec: the validation of values, at construction and
    at every assignment.  The values are brought to the unit [u], which
    checks their dimensionality; there is at least one of them; they are
    strictly monotonic.  The spec names no error class for the last two:
    the value error of an invalid argument is taken. *)
Definition validated (v : value) (u : Unit) : result QuantityArray :=
  rbind (parse_values v u) (fun a =>
    match magnitudes a with
    | [] => Raise ValueError
    | _ :: _ =>
        if strictly_monotonic (magnitudes a) then Ok a else Raise ValueError
    end).

(** Modelled from the spec: the [values] setter validates the values
    before it changes anything, then replaces values and array and
    derives the count anew. *)
Definition set_values (v : value) : M MonotonicDimension unit :=
  self <- get ;;
  a <- liftR (validated v (_unit self)) ;;
  modify (set_array v a).

(** Modelled from the spec: the unit of a fresh dimension is that of its
    first value; the values have a length of at least one. *)
Definition first_unit (v : value) : result Unit :=
  match v with
  | PyList (x :: _) => rbind (quantity_of x) (fun q => Ok (qunit q))
  | PyList [] => Raise ValueError
  | _ => Raise TypeError
  end.

(** Modelled from the spec: [MonotonicDimension(values=..., **default)]. *)
Definition new (values : value) (default : dict) : result MonotonicDimension :=
  rbind (first_unit values) (fun u =>
  rbind (validated values u) (fun a =>
  rbind (dict_get "origin_offset" default) (fun oo =>
  rbind (Linear.offset_of oo u) (fun origin_offset =>
  rbind (dict_get "label" default) (fun label =>
  rbind (dict_get "description" default) (fun description =>
  rbind (dict_get "application" default) (fun application =>
  Ok (mkMonotonic (Z.of_nat (List.length (magnitudes a))) values a u
        origin_offset label description application)))))))).

End Monotonic.

(* ================================================================== *)
(** ** __init__.py: class Dimension *)
(* ================================================================== *)

Module Facade.

Import Units.
Local Open Scope method_scope.

Inductive Subtype : Type :=
| LinearSubtype (l : Linear.LinearDimension)
| MonotonicSubtype (m : Monotonic.MonotonicDimension)
| LabeledSubtype (l : Labeled.LabeledDimension).

(** [__slots__ = ("subtype",)] *)
Record Dimension : Type := mkDimension {
  subtype : option Subtype
}.

(** What a read of the facade hands back: a plain object, a quantity, a
    quantity array or a unit. *)
Inductive obj : Type :=
| OValue (v : value)
| OQuantity (q : Quantity)
| OArray (a : QuantityArray)
| OUnit (u : Unit).

Inductive warning : Type :=
| Truncated (count value : Z).

Definition functional_dimension : list string := ["linear"].

Definition is_none (v : value) : bool :=
  match v with PyNone => true | _ => false end.

(** [v == s] for a string literal [s] *)
Definition str_is (v : value) (s : string) : bool :=
  match v with PyStr s' => String.eqb s' s | _ => false end.

Definition default_reciprocal : dict :=
  [ ("increment", PyNone); ("coordinates_offset", PyNone);
    ("origin_offset", PyNone); ("period", PyNone);
    ("quantity_name", PyNone); ("label", PyStr "");
    ("description", PyStr ""); ("application", PyDict []) ].

Definition default_template : dict :=
  [ ("type", PyNone); ("description", PyStr ""); ("count", PyNone);
    ("increment", PyNone); ("labels", PyNone); ("coordinates", PyNone);
    ("coordinates_offset", PyNone); ("origin_offset", PyNone);
    ("fft_output_order", PyBool false); ("period", PyNone);
    ("quantity_name", PyNone); ("label", PyStr "");
    ("application", PyDict []);
    ("reciprocal", PyDict default_reciprocal) ].

Definition _valid_types : list string := ["monotonic"; "linear"; "labeled"].

(** [for subkey in input_subkeys:
       default[key][subkey] = input_dict[key][subkey]] *)
Definition merge_reciprocal (input_subkeys : list string)
  (input_rec default_rec : value) : result value :=
  fold_left
    (fun acc subkey =>
       rbind acc (fun r =>
       rbind (py_getitem input_rec subkey) (fun v => py_setitem r subkey v)))
    input_subkeys (Ok default_rec).

(** The body of [for key in input_keys]. *)
Definition merge_key (input_dict : dict) (input_subkeys : list string)
  (acc : result dict) (key : string) : result dict :=
  rbind acc (fun default =>
  if dict_mem key default then
    if String.eqb key "reciprocal" then
      rbind (dict_get key default) (fun dr =>
      rbind (dict_get key input_dict) (fun ir =>
      rbind (merge_reciprocal input_subkeys ir dr) (fun r =>
      Ok (dict_set key r default))))
    else
      rbind (dict_get key input_dict) (fun v => Ok (dict_set key v default))
  else Ok default).

(** [default] after the merge of [input_dict]. *)
Definition merged (input_dict : dict) : result dict :=
  rbind (if dict_mem "reciprocal" input_dict
         then rbind (dict_get "reciprocal" input_dict) py_keys
         else Ok []) (fun input_subkeys =>
  fold_left (merge_key input_dict input_subkeys) (dict_keys input_dict)
            (Ok default_template)).

(** [for item in missing_key: if default[item] is None: raise KeyError] *)
Fixpoint check_missing (missing_key : list string) (default : dict)
  : result unit :=
  match missing_key with
  | [] => Ok tt
  | item :: rest =>
      rbind (dict_get item default) (fun v =>
      if is_none v then Raise KeyError else check_missing rest default)
  end.

(** [Dimension.linear] *)
Definition linear (default : dict) : result Linear.LinearDimension :=
  rbind (check_missing ["increment"; "count"] default) (fun _ =>
  rbind (dict_get "count" default) (fun c =>
  rbind (validate_int c) (fun _ =>
  Linear.new default))).

Definition set_subtype (s : Subtype) : M Dimension unit :=
  modify (fun _ => mkDimension (Some s)).

(** [Dimension.__init__], on the dictionary [_get_dictionary] returns
    for the arguments. *)
Definition __init__ (input_dict : dict) : M Dimension unit :=
  if negb (dict_mem "type" input_dict) then throw ValueError else
  default <- liftR (merged input_dict) ;;
  typ <- liftR (dict_get "type" default) ;;
  if negb (existsb (str_is typ) _valid_types) then throw ValueError else
  labels <- liftR (dict_get "labels" default) ;;
  (if (str_is typ "labeled" && is_none labels)%bool
   then throw KeyError else ret tt) ;;;
  (if str_is typ "labeled" then
     label <- liftR (dict_get "label" default) ;;
     description <- liftR (dict_get "description" default) ;;
     application <- liftR (dict_get "application" default) ;;
     l <- liftR (Labeled.new labels label description application) ;;
     set_subtype (LabeledSubtype l)
   else ret tt) ;;;
  coordinates <- liftR (dict_get "coordinates" default) ;;
  (if (str_is typ "monotonic" && is_none coordinates)%bool
   then throw KeyError else ret tt) ;;;
  (if str_is typ "monotonic" then
     m <- liftR (Monotonic.new coordinates default) ;;
     set_subtype (MonotonicSubtype m)
   else ret tt) ;;;
  (if str_is typ "linear" then
     l <- liftR (linear default) ;;
     set_subtype (LinearSubtype l)
   else ret tt).

(** The constructor call [Dimension(input_dict)]: there is an object only
    if [__init__] returns. *)
Definition new (input_dict : dict) : result Dimension :=
  match __init__ input_dict (mkDimension None) with
  | (self, Ok _) => Ok self
  | (_, Raise e) => Raise e
  end.

(** *** Reads and writes of [self.subtype] *)

Definition read_subtype : M Dimension Subtype :=
  fun self => match subtype self with
              | Some s => (self, Ok s)
              | None => (self, Raise AttributeError)
              end.

(** A method of the labeled subtype, run on the object in the slot. *)
Definition on_labeled {A} (m : M Labeled.LabeledDimension A)
  (l : Labeled.LabeledDimension) : M Dimension A :=
  fun _ => let (l', r) := m l in (mkDimension (Some (LabeledSubtype l')), r).

Definition on_linear {A} (m : M Linear.LinearDimension A)
  (l : Linear.LinearDimension) : M Dimension A :=
  fun _ => let (l', r) := m l in (mkDimension (Some (LinearSubtype l')), r).

Definition on_monotonic {A} (m : M Monotonic.MonotonicDimension A)
  (x : Monotonic.MonotonicDimension) : M Dimension A :=
  fun _ => let (x', r) := m x in (mkDimension (Some (MonotonicSubtype x')), r).

(** [self.subtype._count] *)
Definition subtype__count : M Dimension Z :=
  s <- read_subtype ;;
  match s with
  | LinearSubtype l => ret (Linear._count l)
  | MonotonicSubtype m => ret (Monotonic._count m)
  | LabeledSubtype l => on_labeled Labeled.read__count l
  end.

(** [self.subtype._count = value] *)
Definition set_subtype__count (value : Z) : M Dimension unit :=
  s <- read_subtype ;;
  match s with
  | LinearSubtype l => on_linear (modify (Linear.set__count value)) l
  | MonotonicSubtype m => on_monotonic (modify (Monotonic.set__count value)) m
  | LabeledSubtype l => on_labeled (modify (Labeled.set__count value)) l
  end.

(** [self.subtype._coordinates] *)
Definition subtype__coordinates : M Dimension obj :=
  s <- read_subtype ;;
  match s with
  | LinearSubtype l => ret (OArray (Linear._coordinates l))
  | MonotonicSubtype m => ret (OArray (Monotonic._coordinates m))
  | LabeledSubtype l =>
      h <- on_labeled (Labeled.getattr "_coordinates") l ;;
      ret (OValue (content h))
  end.

(** [self.subtype._unit] *)
Definition subtype__unit : M Dimension obj :=
  s <- read_subtype ;;
  match s with
  | LinearSubtype l => ret (OUnit (Linear._unit l))
  | MonotonicSubtype m => ret (OUnit (Monotonic._unit m))
  | LabeledSubtype l =>
      h <- on_labeled (Labeled.getattr "_unit") l ;; ret (OValue (content h))
  end.

(** [self.subtype.coordinates_offset] *)
Definition subtype_coordinates_offset : M Dimension obj :=
  s <- read_subtype ;;
  match s with
  | LinearSubtype l => ret (OQuantity (Linear._coordinates_offset l))
  | MonotonicSubtype m => throw AttributeError
  | LabeledSubtype l =>
      h <- on_labeled (Labeled.getattr "coordinates_offset") l ;;
      ret (OValue (content h))
  end.

(** [self.subtype.labels] *)
Definition subtype_labels : M Dimension handle :=
  s <- read_subtype ;;
  match s with
  | LabeledSubtype l => on_labeled Labeled.labels l
  | _ => throw AttributeError
  end.

(** [self.subtype.labels = value] *)
Definition set_subtype_labels (value : value) : M Dimension unit :=
  s <- read_subtype ;;
  match s with
  | LabeledSubtype l => on_labeled (Labeled.set_labels value) l
  | _ => throw AttributeError
  end.

(** [self.subtype.values = value] *)
Definition set_subtype_values (value : value) : M Dimension unit :=
  s <- read_subtype ;;
  match s with
  | MonotonicSubtype m => on_monotonic (Monotonic.set_values value) m
  | _ => throw AttributeError
  end.

(** [self.subtype._get_coordinates( *args)] *)
Definition subtype__get_coordinates (args : list value) : M Dimension unit :=
  s <- read_subtype ;;
  match s with
  | LinearSubtype l =>
      match args with
      | [] => on_linear Linear._get_coordinates l
      | _ => throw TypeError
      end
  | MonotonicSubtype m => throw AttributeError
  | LabeledSubtype l =>
      on_labeled (Labeled.call_method "_get_coordinates" args) l ;;; ret tt
  end.

(** *** Objects in expressions *)

(** [o[:n]] *)
Definition obj_slice (o : obj) (n : Z) : result obj :=
  match o with
  | OArray a => Ok (OArray (array_slice a n))
  | OValue (PyList l) => Ok (OValue (PyList (slice_to n l)))
  | OValue (PyArray (PyList l)) =>
      Ok (OValue (PyArray (PyList (slice_to n l))))
  | _ => Raise TypeError
  end.

(** [a + b] *)
Definition obj_add (a b : obj) : result obj :=
  match a, b with
  | OArray x, OQuantity q => rbind (array_add x q) (fun r => Ok (OArray r))
  | _, _ => Raise TypeError
  end.

(** [a.to(u)] *)
Definition obj_to (a u : obj) : result obj :=
  match a, u with
  | OArray x, OUnit v => rbind (array_to x v) (fun r => Ok (OArray r))
  | OQuantity q, OUnit v => rbind (to q v) (fun r => Ok (OQuantity r))
  | _, _ => Raise AttributeError
  end.

(** *** The attributes of the facade *)

(** [type]: [self.subtype.__class__._type] *)
Definition type : M Dimension string :=
  s <- read_subtype ;;
  ret (match s with
       | LinearSubtype _ => Linear._type
       | MonotonicSubtype _ => Monotonic._type
       | LabeledSubtype _ => Labeled._type
       end).

(** [application] (get): [self.subtype._application], the stored object
    and no copy of it. *)
Definition application : M Dimension handle :=
  s <- read_subtype ;;
  match s with
  | LinearSubtype l =>
      ret (mkHandle (Linear._application l) (Stored "_application"))
  | MonotonicSubtype m =>
      ret (mkHandle (Monotonic._application m) (Stored "_application"))
  | LabeledSubtype l => on_labeled (Labeled.read_slot "_application") l
  end.

(** [coordinates_offset] (get) *)
Definition coordinates_offset : M Dimension obj :=
  t <- type ;;
  if String.eqb t "linear" then subtype_coordinates_offset
  else throw AttributeError.

(** [coordinates] (get) *)
Definition coordinates : M Dimension obj :=
  _n <- subtype__count ;;
  c <- subtype__coordinates ;;
  coordinates <- liftR (obj_slice c _n) ;;
  t <- type ;;
  if String.eqb t "monotonic" then ret coordinates else
  t <- type ;;
  if String.eqb t "linear" then
    off <- coordinates_offset ;;
    sum <- liftR (obj_add coordinates off) ;;
    u <- subtype__unit ;;
    liftR (obj_to sum u)
  else
  t <- type ;;
  if String.eqb t "labeled" then
    h <- subtype_labels ;; ret (OValue (content h))
  else ret (OValue PyNone).

(** [coordinates] (set) *)
Definition set_coordinates (value : value) : M Dimension unit :=
  (t <- type ;;
   if String.eqb t "monotonic" then set_subtype_values value else ret tt) ;;;
  (t <- type ;;
   if String.eqb t "labeled" then set_subtype_labels value else ret tt) ;;;
  (t <- type ;;
   if String.eqb t "linear" then throw AttributeError else ret tt).

(** [count] (get) *)
Definition count : M Dimension Z := subtype__count.

(** [count] (set); the warnings it emits are its result. *)
Definition set_count (value : value) : M Dimension (list warning) :=
  value <- liftR (validate_int value) ;;
  t <- type ;;
  if existsb (String.eqb t) functional_dimension then
    set_subtype__count value ;;;
    subtype__get_coordinates [] ;;;
    ret []
  else
  c <- count ;;
  if value >? c then throw ValueError else
  c <- count ;;
  if value <? c then
    c <- count ;;
    set_subtype__count value ;;;
    ret [Truncated c value]
  else ret [].

(** [labels] (get) *)
Definition labels : M Dimension handle := subtype_labels.

(** [labels] (set) *)
Definition set_labels (array : value) : M Dimension unit :=
  set_subtype_labels array ;;;
  subtype__get_coordinates [array].

(** [label] (get): [self.subtype.label].  The properties of the two
    subtypes that are not among the sources are taken to hand out a
    copy, as the labeled one does. *)
Definition label : M Dimension handle :=
  s <- read_subtype ;;
  match s with
  | LinearSubtype l => ret (mkHandle (Linear._label l) Fresh)
  | MonotonicSubtype m => ret (mkHandle (Monotonic._label m) Fresh)
  | LabeledSubtype l => on_labeled Labeled.label l
  end.

(** [description] (get): [self.subtype.description] *)
Definition description : M Dimension handle :=
  s <- read_subtype ;;
  match s with
  | LinearSubtype l => ret (mkHandle (Linear._description l) Fresh)
  | MonotonicSubtype m => ret (mkHandle (Monotonic._description m) Fresh)
  | LabeledSubtype l => on_labeled Labeled.description l
  end.

(** *** The dictionary of a dimension *)

Section Serialisation.

(** The dictionaries of the two subtypes that are not among the
    sources. *)
Variable linear_dictionary : Linear.LinearDimension -> result dict.
Variable monotonic_dictionary : Monotonic.MonotonicDimension -> result dict.

(** [Dimension._get_python_dictionary] *)
Definition _get_python_dictionary : M Dimension dict :=
  s <- read_subtype ;;
  match s with
  | LinearSubtype l => liftR (linear_dictionary l)
  | MonotonicSubtype m => liftR (monotonic_dictionary m)
  | LabeledSubtype l => on_labeled Labeled._get_python_dictionary l
  end.

(** The dimension built from the dictionary of [d]. *)
Definition round_trip (d : Dimension) : result Dimension :=
  match _get_python_dictionary d with
  | (_, Ok dictionary) => new dictionary
  | (_, Raise e) => Raise e
  end.

End Serialisation.

(** *** Instances and their comparison *)

(** The instances constructed so far; an instance is known by its
    position. *)
Definition heap := list Dimension.

(** [Dimension(input_dict)] as an allocation. *)
Definition construct (input_dict : dict) (h : heap) : heap * result nat :=
  match new input_dict with
  | Ok d => ((h ++ [d])%list, Ok (List.length h))
  | Raise e => (h, Raise e)
  end.

Inductive operand : Type :=
| Instance (id : nat)
| Other (v : value).

(** [a == b] for an instance [a].  The class body defines no [__eq__], so
    the comparison is the one every object has: identity. *)
Definition eq_default (a : nat) (b : operand) : bool :=
  match b with
  | Instance id => Nat.eqb a id
  | Other _ => false
  end.

(** *** The conditions under which construction is said to fail *)

(** The key is not given, or given as [None]. *)
Definition absent (k : string) (d : dict) : bool :=
  match dict_get k d with
  | Ok v => is_none v
  | Raise _ => true
  end.

Definition positive_integer (v : value) : bool :=
  match v with
  | PyInt n => 0 <? n
  | _ => false
  end.

(** The listed conditions: no type; a type that is none of the three
    literals; labels absent for a labeled, coordinates absent for a
    monotonic dimension; increment or count absent, or a count that is
    no positive integer, for a linear one. *)
Definition listed_condition (input_dict : dict) : bool :=
  match dict_get "type" input_dict with
  | Raise _ => true
  | Ok typ =>
      negb (existsb (str_is typ) _valid_types)
      || (str_is typ "labeled" && absent "labels" input_dict)
      || (str_is typ "monotonic" && absent "coordinates" input_dict)
      || (str_is typ "linear"
          && (absent "increment" input_dict
              || absent "count" input_dict
              || match dict_get "count" input_dict with
                 | Ok c => negb (positive_integer c)
                 | Raise _ => true
                 end))
  end%bool.

(** The value under key [k] once the given dictionary was merged into
    the defaults. *)
Definition effective (k : string) (input_dict : dict) : value :=
  match dict_get k input_dict with
  | Ok v => v
  | Raise _ =>
      match dict_get k default_template with
      | Ok v => v
      | Raise _ => PyNone
      end
  end.

(** What the merge loop keeps true of [default]: it has the keys of the
    template, and its reciprocal entry is a dictionary. *)
Definition merge_invariant (d : dict) : Prop :=
  (forall k, dict_mem k d = dict_mem k default_template)
  /\ exists r, dict_get "reciprocal" d = Ok (PyDict r).

(** [reciprocal] is given and is no dictionary. *)
Definition bad_reciprocal (input_dict : dict) : bool :=
  match dict_get "reciprocal" input_dict with
  | Ok (PyDict _) => false
  | Ok _ => true
  | Raise _ => false
  end.

(** An instance whose slot holds the subtype [s]. *)
Definition holding (s : Subtype) : Dimension := mkDimension (Some s).

(** The unit of a linear dimension measures what its increment
    measures; the constructor establishes it. *)
Definition linear_wf (l : Linear.LinearDimension) : Prop :=
  same_family (qunit (Linear._increment l)) (Linear._unit l) = true.

(** The increment of a linear dimension in the unit of the dimension. *)
Definition increment_in_unit (l : Linear.LinearDimension) : Quantity :=
  mkQuantity
    (convert (magnitude (Linear._increment l)) (qunit (Linear._increment l))
             (Linear._unit l))
    (Linear._unit l).

(** The array a linear dimension holds is the one [_get_coordinates]
    leaves for its count, increment and order. *)
Definition linear_cached (l : Linear.LinearDimension) : Prop :=
  linear_wf l
  /\ 0 <= Linear._count l
  /\ Linear._coordinates l
     = scale (index_array (Linear._count l) (Linear._fft_output_order l))
             (increment_in_unit l).

End Facade.

(* ================================================================== *)
(** ** __init__.py: the attributes the facade forwards *)
(* ================================================================== *)

Module Attributes.

Import Units Facade.
Local Open Scope method_scope.

(** The names a setter of the facade assigns on [self.subtype]. *)
Inductive attribute : Type :=
| Application
| Description
| FftOutputOrder
| Increment
| CoordinatesOffset
| Label
| OriginOffset
| Period
| QuantityName.

Definition attribute_name (a : attribute) : string :=
  match a with
  | Application => "application"
  | Description => "description"
  | FftOutputOrder => "fft_output_order"
  | Increment => "increment"
  | CoordinatesOffset => "coordinates_offset"
  | Label => "label"
  | OriginOffset => "origin_offset"
  | Period => "period"
  | QuantityName => "quantity_name"
  end.

(** [self.<name> = value] on a [LabeledDimension]: [application],
    [description] and [label] are properties with a setter; the other
    names are neither a slot nor a property, and an instance of a class
    with [__slots__] takes no new attribute. *)
Definition labeled_setattr (a : attribute) (value : value)
  : M Labeled.LabeledDimension unit :=
  match a with
  | Application => Labeled.set_application value
  | Description => Labeled.set_description value
  | Label => Labeled.set_label value
  | _ => throw AttributeError
  end.

(** [hasattr(self, name)] on a [LabeledDimension]: the two methods are
    there, any other name is there when reading it does not raise. *)
Definition labeled_hasattr (name : string) (self : Labeled.LabeledDimension)
  : bool :=
  if (String.eqb name "_is_quantitative"
      || String.eqb name "_get_python_dictionary")%bool then true
  else negb (raises (snd (Labeled.getattr name self))).

(** What the facade uses of a subtype whose class is not among the
    sources: reading and assigning an attribute, calling a method, and
    [hasattr]. *)
Record subtype_class (S : Type) : Type := mkClass {
  class_getattr : string -> M S obj;
  class_setattr : attribute -> value -> M S unit;
  class_call : string -> list value -> M S obj;
  class_hasattr : string -> S -> bool
}.

(** A class that answers to no name. *)
Definition silent_class (S : Type) : subtype_class S :=
  mkClass (fun _ => throw AttributeError) (fun _ _ => throw AttributeError)
          (fun _ _ => throw AttributeError) (fun _ _ => false).

Section Forwarding.

Variable linear_class : subtype_class Linear.LinearDimension.
Variable monotonic_class : subtype_class Monotonic.MonotonicDimension.

(** [csdfpy.utils._axis_label], which is not among the sources. *)
Variable _axis_label : obj -> obj -> result value.

(** [self.subtype.<name>] *)
Definition subtype_getattr (name : string) : M Dimension obj :=
  s <- read_subtype ;;
  match s with
  | LinearSubtype l => on_linear (class_getattr linear_class name) l
  | MonotonicSubtype m => on_monotonic (class_getattr monotonic_class name) m
  | LabeledSubtype l =>
      h <- on_labeled (Labeled.getattr name) l ;; ret (OValue (content h))
  end.

(** [self.subtype.<name> = value] *)
Definition subtype_setattr (a : attribute) (value : value)
  : M Dimension unit :=
  s <- read_subtype ;;
  match s with
  | LinearSubtype l => on_linear (class_setattr linear_class a value) l
  | MonotonicSubtype m =>
      on_monotonic (class_setattr monotonic_class a value) m
  | LabeledSubtype l => on_labeled (labeled_setattr a value) l
  end.

(** [self.subtype.<name>( *args)] *)
Definition subtype_call (name : string) (args : list value)
  : M Dimension obj :=
  s <- read_subtype ;;
  match s with
  | LinearSubtype l => on_linear (class_call linear_class name args) l
  | MonotonicSubtype m => on_monotonic (class_call monotonic_class name args) m
  | LabeledSubtype l =>
      v <- on_labeled (Labeled.call_method name args) l ;; ret (OValue v)
  end.

(** [hasattr(self.subtype, name)] *)
Definition subtype_hasattr (name : string) : M Dimension bool :=
  s <- read_subtype ;;
  ret (match s with
       | LinearSubtype l => class_hasattr linear_class name l
       | MonotonicSubtype m => class_hasattr monotonic_class name m
       | LabeledSubtype l => labeled_hasattr name l
       end).

(** [self.subtype != "labeled"]: the subtype is an object and no string.
    [LabeledDimension] defines no comparison, and none is taken for the
    two classes that are not among the sources. *)
Definition subtype_is_not (s : Subtype) (literal : string) : bool := true.

(** [fft_output_order], [increment], [origin_offset], [period],
    [quantity_name], [reciprocal] (get) *)
Definition fft_output_order : M Dimension obj :=
  subtype_getattr "fft_output_order".
Definition increment : M Dimension obj := subtype_getattr "increment".
Definition origin_offset : M Dimension obj := subtype_getattr "origin_offset".
Definition period : M Dimension obj := subtype_getattr "period".
Definition quantity_name : M Dimension obj := subtype_getattr "quantity_name".
Definition reciprocal : M Dimension obj := subtype_getattr "reciprocal".

(** The setters that assign the attribute of the same name on the
    subtype. *)
Definition set_application (value : value) : M Dimension unit :=
  subtype_setattr Application value.
Definition set_description (value : value) : M Dimension unit :=
  subtype_setattr Description value.
Definition set_fft_output_order (value : value) : M Dimension unit :=
  subtype_setattr FftOutputOrder value.
Definition set_increment (value : value) : M Dimension unit :=
  subtype_setattr Increment value.
Definition set_coordinates_offset (value : value) : M Dimension unit :=
  subtype_setattr CoordinatesOffset value.
Definition set_label (label : value) : M Dimension unit :=
  subtype_setattr Label label.
Definition set_origin_offset (value : value) : M Dimension unit :=
  subtype_setattr OriginOffset value.
Definition set_period (value : value) : M Dimension unit :=
  subtype_setattr Period value.
Definition set_quantity_name (value : value) : M Dimension unit :=
  subtype_setattr QuantityName value.

(** [absolute_coordinates] (get) *)
Definition absolute_coordinates : M Dimension obj :=
  s <- read_subtype ;;
  if subtype_is_not s "labeled" then
    c <- coordinates ;;
    o <- origin_offset ;;
    sum <- liftR (obj_add c o) ;;
    u <- subtype__unit ;;
    liftR (obj_to sum u)
  else throw AttributeError.

(** [axis_label] (get) *)
Definition axis_label : M Dimension obj :=
  has <- subtype_hasattr "quantity_name" ;;
  if has then
    l <- label ;;
    stripped <- liftR (py_strip (content l)) ;;
    lab <- (if String.eqb stripped "" then quantity_name
            else (l' <- label ;; ret (OValue (content l')))) ;;
    u <- subtype__unit ;;
    r <- liftR (_axis_label lab u) ;;
    ret (OValue r)
  else
    l <- label ;; ret (OValue (content l)).

(** [is_quantitative()] *)
Definition is_quantitative : M Dimension obj :=
  subtype_call "_is_quantitative" [].

(** [to(unit, equivalencies)] *)
Definition to (unit equivalencies : value) : M Dimension Datatypes.unit :=
  subtype_call "_to" [unit; equivalencies] ;;; ret tt.

End Forwarding.

(** The assignments that the setters of [LabeledDimension] take: to the
    label, the description, the application and, with a list, to the
    labels. *)
Inductive assignment : Type :=
| ToLabel (v : value)
| ToDescription (v : value)
| ToApplication (v : value)
| ToLabels (items : list value).

Definition assign (a : assignment) : M Labeled.LabeledDimension unit :=
  match a with
  | ToLabel v => Labeled.set_label v
  | ToDescription v => Labeled.set_description v
  | ToApplication v => Labeled.set_application v
  | ToLabels items => Labeled.set_labels (PyList items)
  end.

(** One assignment after the other.  An assignment that raises leaves
    the object as the exception found it, and the next assignment is
    made on that object. *)
Fixpoint assign_all (todo : list assignment)
  (self : Labeled.LabeledDimension) : Labeled.LabeledDimension :=
  match todo with
  | [] => self
  | a :: rest => assign_all rest (fst (assign a self))
  end.

(** Every list assigned to the labels is a list of labels. *)
Definition assigns_labels (a : assignment) : bool :=
  match a with
  | ToLabels items => label_list items
  | _ => true
  end.

(** The list last assigned to the labels, or else [items]. *)
Fixpoint last_labels (todo : list assignment) (items : list value)
  : list value :=
  match todo with
  | [] => items
  | ToLabels x :: rest => last_labels rest x
  | _ :: rest => last_labels rest items
  end.

End Attributes.

(* ================================================================== *)
(** ** Sample dimensions *)
(* ================================================================== *)

Module Samples.

(** The labeled dimension of the test suite, labels m, s, t, a. *)
Definition msta : Labeled.LabeledDimension :=
  Labeled.mkLabeled (Some 4)
    (Some (PyArray (PyList [PyStr "m"; PyStr "s"; PyStr "t"; PyStr "a"])))
    (Some (PyStr "")) (Some (PyStr "Far far away.")) (Some (PyDict [])).

Definition msta_dict : dict :=
  [("type", PyStr "labeled"); ("description", PyStr "Far far away.");
   ("labels", PyList [PyStr "m"; PyStr "s"; PyStr "t"; PyStr "a"])].

(** A dictionary whose labels are a number. *)
Definition twelve_dict : dict :=
  [("type", PyStr "labeled"); ("labels", PyInt 12)].

(** A labeled dimension with a label of its own. *)
Definition gold_dict : dict :=
  [("type", PyStr "labeled"); ("labels", PyList [PyStr "Cu"; PyStr "Ag"; PyStr "Au"]);
   ("label", PyStr "metal")].

Definition gold : Labeled.LabeledDimension :=
  Labeled.mkLabeled (Some 3)
    (Some (PyArray (PyList [PyStr "Cu"; PyStr "Ag"; PyStr "Au"])))
    (Some (PyStr "metal")) (Some (PyStr "")) (Some (PyDict [])).

(** The linear dimension of the class doctest. *)
Definition gauss_dict : dict :=
  [("type", PyStr "linear"); ("description", PyStr "test");
   ("increment", PyStr "5 G"); ("count", PyInt 10);
   ("coordinates_offset", PyStr "10 mT"); ("origin_offset", PyStr "10 T")].

(** The same dimension in FFT output order, and the dimensionless one
    of the [fft_output_order] doctest. *)
Definition gauss_fft_dict : dict :=
  (gauss_dict ++ [("fft_output_order", PyBool true)])%list.

Definition plain_fft_dict : dict :=
  [("type", PyStr "linear"); ("increment", PyStr "1"); ("count", PyInt 10);
   ("fft_output_order", PyBool true)].

Definition G : Units.Unit :=
  Units.mkUnit "G" (1 # 10000) "magnetic flux density".
Definition mT : Units.Unit :=
  Units.mkUnit "mT" (1 # 1000) "magnetic flux density".
Definition T : Units.Unit :=
  Units.mkUnit "T" 1 "magnetic flux density".
Definition metre : Units.Unit := Units.mkUnit "m" 1 "length".

Definition gauss : Linear.LinearDimension :=
  Linear.mkLinear 10 (Units.mkQuantity 5 G) (Units.mkQuantity 10 mT)
    (Units.mkQuantity 10 T) false G
    (Units.mkArray [0; 5; 10; 15; 20; 25; 30; 35; 40; 45]%Q G)
    (PyStr "") (PyStr "test") (PyDict []).

(** The monotonic dimension of the test suite, without its light year. *)
Definition far_dict : dict :=
  [("type", PyStr "monotonic"); ("description", PyStr "Far far away.");
   ("coordinates", PyList [PyStr "1 m"; PyStr "100 m"; PyStr "1 km"])].

Definition far : Monotonic.MonotonicDimension :=
  Monotonic.mkMonotonic 3 (PyList [PyStr "1 m"; PyStr "100 m"; PyStr "1 km"])
    (Units.mkArray [1; 100; 1000]%Q metre) metre (Units.mkQuantity 0 metre)
    (PyStr "") (PyStr "Far far away.") (PyDict []).

End Samples.

(* ================================================================== *)
(** * Properties *)
(* ================================================================== *)

Import Facade.

Unset Implicit Arguments.

Ltac unfold_method :=
  unfold bind, ret, throw, liftR, modify, get, on_labeled, on_linear,
    on_monotonic, read_subtype, holding in *; simpl in *.

(** The sample dimensions are what the constructor builds from their
    dictionaries. *)
Example new_msta :
  new Samples.msta_dict = Ok (holding (LabeledSubtype Samples.msta)).
Proof. reflexivity. Qed.

Example new_gold :
  new Samples.gold_dict = Ok (holding (LabeledSubtype Samples.gold)).
Proof. reflexivity. Qed.

Example new_gauss :
  new Samples.gauss_dict = Ok (holding (LinearSubtype Samples.gauss)).
Proof. vm_compute. reflexivity. Qed.

Example new_far :
  new Samples.far_dict = Ok (holding (MonotonicSubtype Samples.far)).
Proof. vm_compute. reflexivity. Qed.

(** ** The [coordinates] property *)

(** C1 (defect of the code).  Reading [coordinates] of a labeled dimension
    raises [AttributeError] and never reaches the branch that hands out
    the labels: the getter first reads [self.subtype._coordinates], and
    that is no slot of [LabeledDimension]. *)
Theorem coordinates_of_labeled_raises :
  forall l : Labeled.LabeledDimension,
    coordinates (holding (LabeledSubtype l))
    = (holding (LabeledSubtype l), Raise AttributeError).
Proof.
  intros [c lb la de ap]. unfold coordinates, subtype__count.
  destruct c as [n|]; reflexivity.
Qed.

(** A name that is none of the slots, properties and methods of
    [LabeledDimension] cannot be read or called. *)
Lemma labeled_unknown_attribute :
  forall (name : string) (args : list value) (l : Labeled.LabeledDimension),
    Labeled.hasattr name = false ->
    Labeled.getattr name l = (l, Raise AttributeError)
    /\ Labeled.call_method name args l = (l, Raise AttributeError).
Proof.
  intros name args l H. unfold Labeled.hasattr, Labeled.attribute_names in H.
  cbn [existsb] in H.
  repeat match type of H with
         | (String.eqb name ?x || _)%bool = false =>
             apply orb_false_iff in H;
             let E := fresh "E" in destruct H as [E H]
         end.
  unfold Labeled.getattr, Labeled.call_method.
  repeat match goal with
         | E : String.eqb name _ = false |- _ => rewrite E; clear E
         end.
  split; reflexivity.
Qed.

Example labeled_has_no__coordinates :
  Labeled.hasattr "_coordinates" = false
  /\ Labeled.hasattr "_get_coordinates" = false.
Proof. split; reflexivity. Qed.

(** The doctest of the class: increment 5 G, count 10, coordinates offset
    10 mT give 100, 105, ..., 145 G. *)
Example coordinates_of_doctest :
  snd (coordinates (holding (LinearSubtype Samples.gauss)))
  = Ok (OArray (Units.mkArray
          [100; 105; 110; 115; 120; 125; 130; 135; 140; 145]%Q Samples.G)).
Proof. vm_compute. reflexivity. Qed.

(** The doctests in FFT output order: 100, ..., 120, 75, ..., 95 G, and
    0, ..., 4, -5, ..., -1 for increment 1 and count 10. *)
Example coordinates_of_doctest_fft :
  rbind (new Samples.gauss_fft_dict) (fun x => snd (coordinates x))
  = Ok (OArray (Units.mkArray
          [100; 105; 110; 115; 120; 75; 80; 85; 90; 95]%Q Samples.G))
  /\ rbind (new Samples.plain_fft_dict) (fun x => snd (coordinates x))
     = Ok (OArray (Units.mkArray
             [0; 1; 2; 3; 4; -5; -4; -3; -2; -1]%Q
             (Units.mkUnit "" 1 "dimensionless"))).
Proof. split; vm_compute; reflexivity. Qed.


(** ** Assignment of labels *)

(** C8 (defect of the code).  The [labels] setter of [LabeledDimension]
    validates nothing.  A list with an element that is no string is
    stored and no error is raised; a value without a length raises a
    type error, not a value error, and only after the stored labels were
    already replaced. *)
Theorem set_labels_validates_nothing :
  forall l : Labeled.LabeledDimension,
    Labeled.set_labels (PyList [PyStr "12"; PyStr "1"; PyInt 4]) l
    = (Labeled.set__count 3
         (Labeled.set__labels
            (PyArray (PyList [PyStr "12"; PyStr "1"; PyInt 4])) l),
       Ok tt)
    /\ Labeled.set_labels (PyInt 12) l
       = (Labeled.set__labels (PyArray (PyInt 12)) l, Raise TypeError).
Proof. intros l. split; reflexivity. Qed.

(** What the setter does on any value: the array is stored first, the
    count follows only if the value has a length. *)
Lemma set_labels_sized :
  forall (l : Labeled.LabeledDimension) (v : value) (n : Z),
    py_len v = Ok n ->
    Labeled.set_labels v l
    = (Labeled.set__count n (Labeled.set__labels (np_asarray v) l), Ok tt).
Proof.
  intros l v n H. unfold Labeled.set_labels. unfold_method.
  rewrite H. reflexivity.
Qed.

Lemma set_labels_unsized :
  forall (l : Labeled.LabeledDimension) (v : value) (e : exn),
    py_len v = Raise e ->
    Labeled.set_labels v l
    = (Labeled.set__labels (np_asarray v) l, Raise e).
Proof.
  intros l v e H. unfold Labeled.set_labels. unfold_method.
  rewrite H. reflexivity.
Qed.

Lemma py_len_raises_TypeError :
  forall (v : value) (e : exn), py_len v = Raise e -> e = TypeError.
Proof.
  intros v e H. destruct v as [| | | | | |d]; simpl in H; try congruence.
  destruct d; congruence.
Qed.

(** The setter on a list: the array of the list is stored, and the
    length of the list as the count. *)
Lemma set_labels_of_list :
  forall (l : Labeled.LabeledDimension) (items : list value),
    Labeled.set_labels (PyList items) l
    = (Labeled.mkLabeled (Some (Z.of_nat (List.length items)))
         (Some (PyArray (PyList items)))
         (Labeled._label l) (Labeled._description l)
         (Labeled._application l),
       Ok tt).
Proof. intros [c ls lb ds ap] items. reflexivity. Qed.

(** C10 (as amended).  For every labeled dimension and every list of
    strings, assigning the list through the facade's [labels] property
    raises an [AttributeError], from the call of [_get_coordinates],
    which a [LabeledDimension] does not have; assigning the same list
    through the facade's [coordinates] property succeeds, and the count
    read back is the length of the list.  For a list of labels the
    dimension that either assignment leaves is the one before it with
    the labels and their number replaced, and the labels read back are
    the list. *)
Theorem facade_set_labels_always_raises :
  forall (l : Labeled.LabeledDimension) (items : list value),
    forallb isinstance_str items = true ->
    snd (set_labels (PyList items) (holding (LabeledSubtype l)))
    = Raise AttributeError
    /\ snd (set_coordinates (PyList items) (holding (LabeledSubtype l)))
       = Ok tt
    /\ snd (count (fst (set_coordinates (PyList items)
                          (holding (LabeledSubtype l)))))
       = Ok (Z.of_nat (List.length items))
    /\ (label_list items = true ->
        set_labels (PyList items) (holding (LabeledSubtype l))
        = (holding (LabeledSubtype
             (Labeled.mkLabeled (Some (Z.of_nat (List.length items)))
                (Some (PyArray (PyList items)))
                (Labeled._label l) (Labeled._description l)
                (Labeled._application l))),
           Raise AttributeError)
        /\ set_coordinates (PyList items) (holding (LabeledSubtype l))
           = (holding (LabeledSubtype
                (Labeled.mkLabeled (Some (Z.of_nat (List.length items)))
                   (Some (PyArray (PyList items)))
                   (Labeled._label l) (Labeled._description l)
                   (Labeled._application l))),
              Ok tt)
        /\ snd (labels (fst (set_coordinates (PyList items)
                               (holding (LabeledSubtype l)))))
           = Ok (mkHandle (PyArray (PyList items)) Fresh)).
Proof.
  intros l items _.
  assert (C : set_coordinates (PyList items) (holding (LabeledSubtype l))
              = (holding (LabeledSubtype
                   (Labeled.mkLabeled (Some (Z.of_nat (List.length items)))
                      (Some (PyArray (PyList items)))
                      (Labeled._label l) (Labeled._description l)
                      (Labeled._application l))),
                 Ok tt)).
  { destruct l as [c ls lb ds ap]. reflexivity. }
  assert (S : set_labels (PyList items) (holding (LabeledSubtype l))
              = (holding (LabeledSubtype
                   (Labeled.mkLabeled (Some (Z.of_nat (List.length items)))
                      (Some (PyArray (PyList items)))
                      (Labeled._label l) (Labeled._description l)
                      (Labeled._application l))),
                 Raise AttributeError)).
  { destruct l as [c ls lb ds ap]. reflexivity. }
  split; [rewrite S; reflexivity|].
  split; [rewrite C; reflexivity|].
  split; [rewrite C; reflexivity|].
  intros _. split; [exact S|]. split; [exact C|].
  rewrite C. reflexivity.
Qed.

Lemma facade_set_labels_always_raises_witness :
  forallb isinstance_str [PyStr "a"; PyStr "b"; PyStr "c"] = true
  /\ label_list [PyStr "a"; PyStr "b"; PyStr "c"] = true
  /\ snd (set_labels (PyList [PyStr "a"; PyStr "b"; PyStr "c"])
            (holding (LabeledSubtype Samples.msta)))
     = Raise AttributeError
  /\ set_coordinates (PyList [PyStr "a"; PyStr "b"; PyStr "c"])
       (holding (LabeledSubtype Samples.msta))
     = (holding (LabeledSubtype
          (Labeled.mkLabeled (Some 3)
             (Some (PyArray (PyList [PyStr "a"; PyStr "b"; PyStr "c"])))
             (Some (PyStr "")) (Some (PyStr "Far far away."))
             (Some (PyDict [])))),
        Ok tt).
Proof.
  split; [reflexivity|]. split; [reflexivity|]. split.
  - apply (proj1 (facade_set_labels_always_raises Samples.msta
                    [PyStr "a"; PyStr "b"; PyStr "c"] eq_refl)).
  - apply (proj1 (proj2 (proj2 (proj2 (proj2
             (facade_set_labels_always_raises Samples.msta
                [PyStr "a"; PyStr "b"; PyStr "c"] eq_refl)))
             eq_refl))).
Defined.

(** C10 (as stated) fails: the value 12 has no length, and the error that
    leaves the facade's [labels] setter is a [TypeError]. *)
Lemma facade_set_labels_not_always_AttributeError :
  snd (set_labels (PyInt 12) (holding (LabeledSubtype Samples.msta)))
  <> Raise AttributeError.
Proof. vm_compute. discriminate. Qed.

(** ** Assignment of coordinates *)






(** ** The index array *)

Lemma zrange_length : forall (len : nat) (lo : Z),
  List.length (zrange lo len) = len.
Proof. induction len as [|k IH]; intros lo; simpl; [|rewrite IH]; reflexivity. Qed.

Lemma zrange_nth : forall (len : nat) (lo : Z) (k : nat) (d : Z),
  (k < len)%nat -> nth k (zrange lo len) d = lo + Z.of_nat k.
Proof.
  induction len as [|n IH]; intros lo k d H; [lia|].
  destruct k as [|k]; simpl.
  - lia.
  - rewrite IH by lia. lia.
Qed.

Lemma even_half : forall N : Z, Z.even N = true -> N = 2 * (N / 2).
Proof.
  intros N H. apply Z.even_spec in H. destruct H as [k ->].
  rewrite Z.mul_comm, Z.div_mul by lia. lia.
Qed.

Lemma odd_half : forall N : Z, Z.even N = false -> N = 2 * ((N - 1) / 2) + 1.
Proof.
  intros N H. rewrite <- Z.negb_odd in H. apply negb_false_iff in H.
  apply Z.odd_spec in H. destruct H as [k ->].
  replace (2 * k + 1 - 1) with (k * 2) by lia.
  rewrite Z.div_mul by lia. lia.
Qed.

Lemma index_array_length : forall (N : Z) (fft : bool),
  0 <= N -> Z.of_nat (List.length (index_array N fft)) = N.
Proof.
  intros N fft H. unfold index_array.
  destruct fft; [destruct (Z.even N) eqn:E|].
  - rewrite length_app, !zrange_length. pose proof (even_half N E). lia.
  - rewrite length_app, !zrange_length. pose proof (odd_half N E). lia.
  - rewrite zrange_length. lia.
Qed.

(** One formula for both parities: the first half counts up from zero,
    the rest counts up to minus one. *)
Lemma index_array_nth : forall (N k : Z),
  0 <= k < N ->
  nth (Z.to_nat k) (index_array N true) 0
  = if k <=? (N - 1) / 2 then k else k - N.
Proof.
  intros N k H. unfold index_array. destruct (Z.even N) eqn:E.
  - pose proof (even_half N E) as HN.
    assert (HT : (N - 1) / 2 = N / 2 - 1).
    { rewrite HN at 1. replace (2 * (N / 2) - 1) with (1 + (N / 2 - 1) * 2) by lia.
      rewrite Z.div_add by lia. reflexivity. }
    rewrite HT. destruct (k <=? N / 2 - 1) eqn:C.
    + apply Z.leb_le in C. rewrite app_nth1 by (rewrite zrange_length; lia).
      rewrite zrange_nth by lia. lia.
    + apply Z.leb_gt in C. rewrite app_nth2 by (rewrite zrange_length; lia).
      rewrite zrange_length, zrange_nth by lia. lia.
  - pose proof (odd_half N E) as HN. cbv zeta.
    destruct (k <=? (N - 1) / 2) eqn:C.
    + apply Z.leb_le in C. rewrite app_nth1 by (rewrite zrange_length; lia).
      rewrite zrange_nth by lia. lia.
    + apply Z.leb_gt in C. rewrite app_nth2 by (rewrite zrange_length; lia).
      rewrite zrange_length, zrange_nth by lia. lia.
Qed.

(** C2.  For a count [N] of at least one the index array has [N]
    entries.  Without FFT output order entry [k] is [k].  With it and [N]
    even, the entries [0 .. N/2-1] are [0, 1, ..., N/2-1] and the
    entries from [N/2] on are [-N/2, -N/2+1, ..., -1]; with [N] odd and
    [T = N-1], the entries [0 .. T/2] are [0, 1, ..., T/2] and those from
    [T/2+1] on are [-T/2, ..., -1].  Counts 10 and 11 give the two arrays
    of the spec. *)
Theorem index_array_layout : forall N : Z,
  1 <= N ->
  Z.of_nat (List.length (index_array N false)) = N
  /\ Z.of_nat (List.length (index_array N true)) = N
  /\ (forall k, 0 <= k < N ->
        nth (Z.to_nat k) (index_array N false) 0 = k)
  /\ (Z.even N = true ->
        forall k, 0 <= k < N / 2 ->
          nth (Z.to_nat k) (index_array N true) 0 = k
          /\ nth (Z.to_nat (N / 2 + k)) (index_array N true) 0 = - (N / 2) + k)
  /\ (Z.even N = false ->
        let T := N - 1 in
        (forall k, 0 <= k <= T / 2 ->
           nth (Z.to_nat k) (index_array N true) 0 = k)
        /\ (forall k, 0 <= k < T / 2 ->
           nth (Z.to_nat (T / 2 + 1 + k)) (index_array N true) 0
           = - (T / 2) + k))
  /\ index_array 10 true = [0; 1; 2; 3; 4; -5; -4; -3; -2; -1]
  /\ index_array 11 true = [0; 1; 2; 3; 4; 5; -5; -4; -3; -2; -1].
Proof.
  intros N HN. repeat split.
  - apply index_array_length. lia.
  - apply index_array_length. lia.
  - intros k Hk. unfold index_array. rewrite zrange_nth by lia. lia.
  - pose proof (even_half N H) as E. rewrite index_array_nth by lia.
    assert (HT : (N - 1) / 2 = N / 2 - 1).
    { rewrite E at 1.
      replace (2 * (N / 2) - 1) with (1 + (N / 2 - 1) * 2) by lia.
      rewrite Z.div_add by lia. reflexivity. }
    rewrite HT. destruct (k <=? N / 2 - 1) eqn:C; [reflexivity|].
    apply Z.leb_gt in C. lia.
  - pose proof (even_half N H) as E. rewrite index_array_nth by lia.
    assert (HT : (N - 1) / 2 = N / 2 - 1).
    { rewrite E at 1.
      replace (2 * (N / 2) - 1) with (1 + (N / 2 - 1) * 2) by lia.
      rewrite Z.div_add by lia. reflexivity. }
    rewrite HT. destruct (N / 2 + k <=? N / 2 - 1) eqn:C.
    + apply Z.leb_le in C. lia.
    + lia.
  - intros k Hk. pose proof (odd_half N H) as E.
    rewrite index_array_nth by lia.
    destruct (k <=? (N - 1) / 2) eqn:C; [reflexivity|].
    apply Z.leb_gt in C. lia.
  - intros k Hk. pose proof (odd_half N H) as E.
    rewrite index_array_nth by lia.
    destruct ((N - 1) / 2 + 1 + k <=? (N - 1) / 2) eqn:C.
    + apply Z.leb_le in C. lia.
    + lia.
Qed.

Lemma index_array_layout_witness :
  Z.of_nat (List.length (index_array 10 true)) = 10
  /\ nth 7 (index_array 10 true) 0 = -3
  /\ nth 8 (index_array 11 true) 0 = -3.
Proof.
  split; [|split].
  - apply (proj1 (proj2 (index_array_layout 10 ltac:(lia)))).
  - apply (proj2 (proj1 (proj2 (proj2 (proj2 (index_array_layout 10 ltac:(lia)))))
             eq_refl 2 ltac:(vm_compute; split; [discriminate|reflexivity]))).
  - apply (proj2 (proj1 (proj2 (proj2 (proj2 (proj2 (index_array_layout 11 ltac:(lia))))))
             eq_refl) 2 ltac:(vm_compute; split; [discriminate|reflexivity])).
Defined.

(** ** Assignment of the count *)

(** A value that is no integer is refused before anything is touched. *)
Lemma set_count_refuses_non_integer :
  forall (d : Dimension) (v : value),
    validate_int v = Raise TypeError ->
    set_count v d = (d, Raise TypeError).
Proof.
  intros d v H. unfold set_count. unfold_method. rewrite H. reflexivity.
Qed.

(** On a monotonic dimension a count below the current one is stored
    with the truncation warning, and the coordinates read afterwards are
    the first [v] stored values. *)
Lemma shrinking_cuts_monotonic_read :
  forall (m : Monotonic.MonotonicDimension) (v : Z),
    v < Monotonic._count m ->
    set_count (PyInt v) (holding (MonotonicSubtype m))
    = (holding (MonotonicSubtype (Monotonic.set__count v m)),
       Ok [Truncated (Monotonic._count m) v])
    /\ snd (coordinates
              (fst (set_count (PyInt v) (holding (MonotonicSubtype m)))))
       = Ok (OArray (Units.array_slice (Monotonic._coordinates m) v)).
Proof.
  intros m v H.
  assert (E : (v >? Monotonic._count m) = false).
  { rewrite Z.gtb_ltb. apply Z.ltb_ge. lia. }
  assert (E' : (v <? Monotonic._count m) = true) by (apply Z.ltb_lt; lia).
  assert (K : set_count (PyInt v) (holding (MonotonicSubtype m))
              = (holding (MonotonicSubtype (Monotonic.set__count v m)),
                 Ok [Truncated (Monotonic._count m) v])).
  { unfold set_count, count, subtype__count, type, set_subtype__count.
    unfold_method. rewrite E; simpl; rewrite E'. reflexivity. }
  split; [exact K|]. rewrite K. reflexivity.
Qed.

(** C5 (defect of the code).  The count of the labeled dimension with
    the four labels m, s, t, a is set to two.  The warning that the
    coordinates are truncated from four to two is emitted and the count
    is two, but only the count has changed: the stored labels are still
    the four, [labels] hands out all four, and nothing of length two is
    read back.  On the monotonic dimension with three values the same
    assignment makes [coordinates] hand out the first two. *)
Theorem shrinking_keeps_all_labels :
  set_count (PyInt 2) (holding (LabeledSubtype Samples.msta))
  = (holding (LabeledSubtype
       (Labeled.mkLabeled (Some 2)
          (Some (PyArray
                   (PyList [PyStr "m"; PyStr "s"; PyStr "t"; PyStr "a"])))
          (Some (PyStr "")) (Some (PyStr "Far far away."))
          (Some (PyDict [])))),
     Ok [Truncated 4 2])
  /\ snd (labels (fst (set_count (PyInt 2)
                         (holding (LabeledSubtype Samples.msta)))))
     = Ok (mkHandle
             (PyArray (PyList [PyStr "m"; PyStr "s"; PyStr "t"; PyStr "a"]))
             Fresh)
  /\ ~ (exists h,
         snd (labels (fst (set_count (PyInt 2)
                             (holding (LabeledSubtype Samples.msta)))))
         = Ok h
         /\ py_len (content h) = Ok 2)
  /\ snd (coordinates (fst (set_count (PyInt 2)
                              (holding (MonotonicSubtype Samples.far)))))
     = Ok (OArray (Units.mkArray [1; 100]%Q Samples.metre)).
Proof.
  split; [reflexivity|]. split; [reflexivity|]. split.
  - intros [h [H1 H2]]. vm_compute in H1. inversion H1; subst h.
    vm_compute in H2. discriminate.
  - vm_compute. reflexivity.
Qed.

Ltac step_rbind H :=
  match type of H with
  | rbind ?r _ = Ok _ =>
      let E := fresh "E" in destruct r eqn:E; simpl in H; [|discriminate]
  | (if ?b then _ else _) = Ok _ =>
      let E := fresh "E" in destruct b eqn:E; [try discriminate|try discriminate]
  end.

(** The constructor of a linear dimension takes the unit from the
    increment. *)
Lemma linear_new_wf :
  forall (default : dict) (l : Linear.LinearDimension),
    Linear.new default = Ok l -> linear_wf l.
Proof.
  intros default l H. unfold Linear.new in H.
  repeat step_rbind H.
  unfold Linear._get_coordinates, Units.to in H. unfold_method.
  unfold Units.same_family in H. simpl in H.
  rewrite String.eqb_refl in H. inversion H; subst l.
  unfold linear_wf, Units.same_family. simpl. apply String.eqb_refl.
Qed.

(** The linear branch: index array times increment plus coordinates
    offset, in the unit of the dimension, which is that of the
    increment. *)
Lemma coordinates_of_linear :
  forall (l : Linear.LinearDimension) (off : Units.Quantity),
    linear_cached l ->
    Units.to (Linear._coordinates_offset l) (Linear._unit l) = Ok off ->
    coordinates (holding (LinearSubtype l))
    = (holding (LinearSubtype l),
       Ok (OArray (Units.mkArray
          (map (fun j =>
                  Units.convert
                    (Qred (Qred (inject_Z j
                                 * Units.magnitude (increment_in_unit l))
                           + Units.magnitude off))
                    (Linear._unit l) (Linear._unit l))
               (index_array (Linear._count l) (Linear._fft_output_order l)))
          (Linear._unit l)))).
Proof.
  intros l off [W [Hc Hcache]] Hoff.
  unfold coordinates, subtype__count, subtype__coordinates, type,
    coordinates_offset, subtype_coordinates_offset, subtype__unit.
  unfold_method. rewrite Hcache.
  unfold Units.array_slice, Units.scale, slice_to. simpl.
  assert (L : (0 <=? Linear._count l) = true) by (apply Z.leb_le; exact Hc).
  rewrite L.
  assert (F : forall (A : Type) (xs : list A) (n : nat),
            List.length xs = n -> firstn n xs = xs).
  { intros A xs n <-. apply firstn_all. }
  rewrite F.
  2:{ rewrite length_map.
      pose proof (index_array_length (Linear._count l)
                    (Linear._fft_output_order l) Hc). lia. }
  unfold Units.array_add. simpl. rewrite Hoff. simpl.
  unfold Units.array_to, Units.same_family. simpl.
  rewrite String.eqb_refl, map_map, map_map. reflexivity.
Qed.

(** The constructor leaves the array in that state, and so does every
    assignment of a count that is not negative. *)
Lemma linear_new_cached :
  forall (default : dict) (l : Linear.LinearDimension),
    Linear.new default = Ok l -> linear_cached l.
Proof.
  intros default l H. unfold Linear.new in H.
  repeat step_rbind H.
  unfold Linear._get_coordinates, Units.to in H. unfold_method.
  unfold Units.same_family in H. simpl in H.
  rewrite String.eqb_refl in H. inversion H; subst l.
  unfold linear_cached, linear_wf, increment_in_unit, Units.same_family.
  simpl. rewrite String.eqb_refl. repeat split.
  apply Z.ltb_ge in E1. lia.
Qed.

(** ** Comparison of dimensions *)

Lemma eq_default_refl : forall a : nat, eq_default a (Instance a) = true.
Proof. intros a. apply Nat.eqb_refl. Qed.

Lemma eq_default_sym : forall a b : nat,
  eq_default a (Instance b) = eq_default b (Instance a).
Proof. intros a b. apply Nat.eqb_sym. Qed.

Lemma eq_default_other : forall (a : nat) (v : value),
  eq_default a (Other v) = false.
Proof. reflexivity. Qed.

(** Two constructions never give the same instance. *)
Lemma construct_twice_differs :
  forall (i j : dict) (h h1 h2 : heap) (a b : nat),
    construct i h = (h1, Ok a) ->
    construct j h1 = (h2, Ok b) ->
    eq_default a (Instance b) = false.
Proof.
  intros i j h h1 h2 a b H1 H2. unfold construct in *.
  destruct (new i); inversion H1; subst.
  destruct (new j); inversion H2; subst.
  simpl. rewrite length_app. simpl. apply Nat.eqb_neq. lia.
Qed.

(** C7 (defect of the code).  The class defines no comparison, so two
    dimensions are equal only when they are one and the same instance.
    Two labeled dimensions built from the same dictionary have the same
    subtype and the same fields, and compare unequal. *)
Theorem equal_fields_compare_unequal :
  let (h1, a) := construct Samples.gold_dict [] in
  let (h2, b) := construct Samples.gold_dict h1 in
  a = Ok 0%nat /\ b = Ok 1%nat
  /\ nth_error h2 0 = Some (holding (LabeledSubtype Samples.gold))
  /\ nth_error h2 1 = Some (holding (LabeledSubtype Samples.gold))
  /\ eq_default 0 (Instance 1) = false.
Proof. vm_compute. repeat split. Qed.

(** ** The dictionary of a labeled dimension *)

Section RoundTrip.

Variable linear_dictionary : Linear.LinearDimension -> result dict.
Variable monotonic_dictionary : Monotonic.MonotonicDimension -> result dict.

Let round_trip := round_trip linear_dictionary monotonic_dictionary.

(** What survives the way through the dictionary: the labels, the
    count they imply and the description without the white space
    around it.  The label and the application metadata are not
    written, and come back as the defaults. *)
Lemma round_trip_labeled :
  forall (c n : Z) (lb la ap : value) (s : string),
    py_len lb = Ok n ->
    round_trip
      (holding (LabeledSubtype
         (Labeled.mkLabeled (Some c) (Some (PyArray lb)) (Some la)
            (Some (PyStr s)) (Some ap))))
    = Ok (holding (LabeledSubtype
         (Labeled.mkLabeled (Some n) (Some (np_asarray lb))
            (Some (PyStr "")) (Some (PyStr (lstrip (rstrip s))))
            (Some (PyDict []))))).
Proof.
  intros c n lb la ap s H.
  unfold round_trip, Facade.round_trip, _get_python_dictionary,
    Labeled._get_python_dictionary.
  unfold_method.
  destruct (String.eqb (lstrip (rstrip s)) "") eqn:E.
  - apply String.eqb_eq in E. rewrite E.
    destruct lb as [| | | | | |x]; simpl in H; try discriminate;
      try (inversion H; subst n; reflexivity).
    destruct x; simpl in H; try discriminate.
    inversion H; subst n; reflexivity.
  - destruct lb as [| | | | | |x]; simpl in H; try discriminate;
      try (inversion H; subst n; reflexivity).
    destruct x; simpl in H; try discriminate.
    inversion H; subst n; reflexivity.
Qed.

End RoundTrip.

(** C3 (defect of the code).  The dictionary of a labeled dimension
    leaves out its label: the dimension with labels Cu, Ag, Au and the
    label metal comes back from its own dictionary with an empty label. *)
Theorem round_trip_loses_label :
  forall (linear_dictionary : Linear.LinearDimension -> result dict)
         (monotonic_dictionary : Monotonic.MonotonicDimension -> result dict),
    let d := holding (LabeledSubtype Samples.gold) in
    snd (_get_python_dictionary linear_dictionary monotonic_dictionary d)
    = Ok [("type", PyStr "labeled");
          ("labels", PyList [PyStr "Cu"; PyStr "Ag"; PyStr "Au"])]
    /\ snd (label d) = Ok (mkHandle (PyStr "metal") Fresh)
    /\ exists d',
         round_trip linear_dictionary monotonic_dictionary d = Ok d'
         /\ snd (label d') = Ok (mkHandle (PyStr "") Fresh)
         /\ snd (labels d') = snd (labels d).
Proof.
  intros lin mono. cbv zeta. split; [reflexivity|]. split; [reflexivity|].
  eexists. split; [reflexivity|]. split; reflexivity.
Qed.

(** ** What the getters hand out *)


Lemma write_through_fresh :
  forall (h : handle) (p : path) (new : value) (l : Labeled.LabeledDimension),
    origin_of h = Fresh -> Labeled.write_through h p new l = l.
Proof. intros h p new l H. unfold Labeled.write_through. rewrite H. reflexivity. Qed.



(** The facade's own [application] getter reads the slot and copies
    nothing: a change made in place inside what it hands out is a change
    of the dimension. *)
Lemma facade_application_is_the_stored_object :
  forall (l : Labeled.LabeledDimension) (v new : value),
    Labeled._application l = Some v ->
    exists h,
      application (holding (LabeledSubtype l))
      = (holding (LabeledSubtype l), Ok h)
      /\ content h = v
      /\ Labeled._application (Labeled.write_through h [] new l) = Some new.
Proof.
  intros [c lb la de ap] v new H. simpl in H. subst ap.
  eexists. split; [reflexivity|]. split; reflexivity.
Qed.

(** A change at a place inside a stored object is seen by the slot. *)
Example write_through_stored :
  Labeled._labels
    (Labeled.write_through
       (mkHandle
          (PyArray (PyList [PyStr "m"; PyStr "s"; PyStr "t"; PyStr "a"]))
          (Stored "_labels"))
       [Data; Item 1] (PyStr "Skywalker") Samples.msta)
  = Some (PyArray (PyList [PyStr "m"; PyStr "Skywalker"; PyStr "t"; PyStr "a"])).
Proof. reflexivity. Qed.

(** ** Construction *)

Lemma dict_mem_get : forall (k : string) (d : dict),
  dict_mem k d = true -> exists v, dict_get k d = Ok v.
Proof.
  intros k d. induction d as [|[k' v'] d IH]; simpl; [discriminate|].
  destruct (String.eqb k k'); [eauto|exact IH].
Qed.

Lemma dict_not_mem_get : forall (k : string) (d : dict),
  dict_mem k d = false -> dict_get k d = Raise KeyError.
Proof.
  intros k d. induction d as [|[k' v'] d IH]; simpl; [reflexivity|].
  destruct (String.eqb k k'); [discriminate|exact IH].
Qed.

Lemma dict_get_mem : forall (k : string) (d : dict) (v : value),
  dict_get k d = Ok v -> dict_mem k d = true.
Proof.
  intros k d v H. destruct (dict_mem k d) eqn:E; [reflexivity|].
  rewrite (dict_not_mem_get k d E) in H. discriminate.
Qed.

Lemma dict_mem_keys : forall (k : string) (d : dict),
  In k (dict_keys d) -> dict_mem k d = true.
Proof.
  intros k d. induction d as [|[k' v'] d IH]; simpl; [tauto|].
  intros [->|H].
  - rewrite String.eqb_refl. reflexivity.
  - destruct (String.eqb k k'); [reflexivity|auto].
Qed.

Lemma dict_mem_set : forall (k a : string) (v : value) (d : dict),
  dict_mem k (dict_set a v d) = (String.eqb k a || dict_mem k d)%bool.
Proof.
  intros k a v d. induction d as [|[k' v'] d IH]; simpl.
  - destruct (String.eqb k a); reflexivity.
  - destruct (String.eqb a k') eqn:E; simpl.
    + apply String.eqb_eq in E. subst k'.
      destruct (String.eqb k a); reflexivity.
    + rewrite IH. destruct (String.eqb k k'), (String.eqb k a); reflexivity.
Qed.

Lemma dict_get_set_same : forall (a : string) (v : value) (d : dict),
  dict_get a (dict_set a v d) = Ok v.
Proof.
  intros a v d. induction d as [|[k' v'] d IH]; simpl.
  - rewrite String.eqb_refl. reflexivity.
  - destruct (String.eqb a k') eqn:E; simpl; rewrite E; [reflexivity|exact IH].
Qed.

Lemma dict_get_set_other : forall (k a : string) (v : value) (d : dict),
  String.eqb k a = false -> dict_get k (dict_set a v d) = dict_get k d.
Proof.
  intros k a v d H. induction d as [|[k' v'] d IH]; simpl.
  - rewrite H. reflexivity.
  - destruct (String.eqb a k') eqn:E; simpl.
    + apply String.eqb_eq in E. subst k'. rewrite H. reflexivity.
    + destruct (String.eqb k k'); [reflexivity|exact IH].
Qed.

(** Merging the entries of a dictionary into a dictionary succeeds and
    gives a dictionary. *)
Lemma merge_reciprocal_ok :
  forall (ir : dict) (subkeys : list string) (dr : dict),
    (forall k, In k subkeys -> dict_mem k ir = true) ->
    exists r, merge_reciprocal subkeys (PyDict ir) (PyDict dr) = Ok (PyDict r).
Proof.
  intros ir subkeys. unfold merge_reciprocal.
  induction subkeys as [|a ks IH]; intros dr H; simpl.
  - eauto.
  - destruct (dict_mem_get a ir (H a (or_introl eq_refl))) as [v Hv].
    rewrite Hv. simpl. apply IH. intros k Hk. apply H. right. exact Hk.
Qed.

Lemma existsb_keys : forall (k : string) (d : dict),
  existsb (String.eqb k) (dict_keys d) = dict_mem k d.
Proof.
  intros k d. induction d as [|[k' v'] d IH]; simpl; [reflexivity|].
  destruct (String.eqb k k'); [reflexivity|exact IH].
Qed.

Lemma merge_invariant_set : forall (a : string) (v : value) (d : dict),
  merge_invariant d ->
  dict_mem a d = true ->
  (String.eqb a "reciprocal" = true -> exists r, v = PyDict r) ->
  merge_invariant (dict_set a v d).
Proof.
  intros a v d [Hk [r Hr]] Ha Hv. split.
  - intros k. rewrite dict_mem_set, <- Hk.
    destruct (String.eqb k a) eqn:E; [|reflexivity].
    apply String.eqb_eq in E. subst k. rewrite Ha. reflexivity.
  - destruct (String.eqb a "reciprocal") eqn:E.
    + apply String.eqb_eq in E. subst a.
      destruct (Hv eq_refl) as [r' ->]. exists r'. apply dict_get_set_same.
    + exists r. rewrite dict_get_set_other; [exact Hr|].
      rewrite String.eqb_sym. exact E.
Qed.

Lemma merge_fold :
  forall (input_dict : dict) (subkeys : list string),
    (dict_mem "reciprocal" input_dict = true ->
     exists ir, dict_get "reciprocal" input_dict = Ok (PyDict ir)
                /\ forall k, In k subkeys -> dict_mem k ir = true) ->
    forall (ks : list string) (d0 : dict),
      (forall k, In k ks -> dict_mem k input_dict = true) ->
      merge_invariant d0 ->
      exists d,
        fold_left (merge_key input_dict subkeys) ks (Ok d0) = Ok d
        /\ merge_invariant d
        /\ forall k, String.eqb k "reciprocal" = false ->
             dict_get k d
             = if (existsb (String.eqb k) ks
                   && dict_mem k default_template)%bool
               then dict_get k input_dict else dict_get k d0.
Proof.
  intros input_dict subkeys Hrec ks.
  induction ks as [|a ks IH]; intros d0 Hks Hinv.
  - exists d0. cbn [fold_left existsb andb]. auto.
  - assert (Ha : dict_mem a input_dict = true) by (apply Hks; left; reflexivity).
    assert (Hks' : forall k, In k ks -> dict_mem k input_dict = true)
      by (intros k Hk; apply Hks; right; exact Hk).
    pose proof Hinv as [Hkeys [r Hr]].
    cbn [fold_left existsb]. unfold merge_key at 2. cbn [rbind].
    destruct (dict_mem a d0) eqn:Hmem.
    + destruct (String.eqb a "reciprocal") eqn:Ea.
      * apply String.eqb_eq in Ea. subst a.
        destruct (Hrec Ha) as [ir [Hir Hsub]].
        rewrite Hr, Hir. cbn [rbind].
        destruct (merge_reciprocal_ok ir subkeys r Hsub) as [r' Hr'].
        rewrite Hr'. cbn [rbind].
        destruct (IH (dict_set "reciprocal" (PyDict r') d0) Hks') as [d [H1 [H2 H3]]].
        { apply merge_invariant_set; eauto. }
        exists d. split; [exact H1|]. split; [exact H2|].
        intros k Hk. rewrite (H3 k Hk), Hk. cbn [orb].
        rewrite dict_get_set_other by exact Hk. reflexivity.
      * destruct (dict_mem_get a input_dict Ha) as [v Hv].
        rewrite Hv. cbn [rbind].
        destruct (IH (dict_set a v d0) Hks') as [d [H1 [H2 H3]]].
        { apply merge_invariant_set; auto. rewrite Ea. discriminate. }
        exists d. split; [exact H1|]. split; [exact H2|].
        intros k Hk. rewrite (H3 k Hk).
        destruct (String.eqb k a) eqn:Eka; cbn [orb andb].
        -- apply String.eqb_eq in Eka. subst k.
           rewrite <- Hkeys, Hmem, dict_get_set_same, Hv.
           destruct (existsb (String.eqb a) ks); reflexivity.
        -- rewrite dict_get_set_other by exact Eka. reflexivity.
    + destruct (IH d0 Hks' Hinv) as [d [H1 [H2 H3]]].
      exists d. split; [exact H1|]. split; [exact H2|].
      intros k Hk. rewrite (H3 k Hk).
      destruct (String.eqb k a) eqn:Eka; cbn [orb]; [|reflexivity].
      apply String.eqb_eq in Eka. subst k.
      rewrite <- Hkeys, Hmem, !andb_false_r. reflexivity.
Qed.

Lemma template_invariant : merge_invariant default_template.
Proof. split; [reflexivity|]. eexists. reflexivity. Qed.

(** The merge fails only on a reciprocal entry that is no dictionary. *)
Lemma merged_bad_reciprocal : forall input_dict : dict,
  bad_reciprocal input_dict = true -> merged input_dict = Raise AttributeError.
Proof.
  intros input_dict H. unfold bad_reciprocal in H. unfold merged.
  destruct (dict_get "reciprocal" input_dict) as [v|e] eqn:E; [|discriminate].
  rewrite (dict_get_mem _ _ _ E). simpl.
  destruct v; try discriminate; reflexivity.
Qed.

Lemma merged_ok : forall input_dict : dict,
  bad_reciprocal input_dict = false ->
  exists d,
    merged input_dict = Ok d
    /\ forall k, String.eqb k "reciprocal" = false ->
         dict_mem k default_template = true ->
         dict_get k d = Ok (effective k input_dict).
Proof.
  intros input_dict H. unfold merged.
  assert (K : exists subkeys,
            (if dict_mem "reciprocal" input_dict
             then rbind (dict_get "reciprocal" input_dict) py_keys
             else Ok []) = Ok subkeys
            /\ (dict_mem "reciprocal" input_dict = true ->
                exists ir, dict_get "reciprocal" input_dict = Ok (PyDict ir)
                           /\ forall k, In k subkeys -> dict_mem k ir = true)).
  { destruct (dict_mem "reciprocal" input_dict) eqn:E.
    - destruct (dict_mem_get _ _ E) as [v Hv]. unfold bad_reciprocal in H.
      rewrite Hv in *. destruct v; try discriminate. simpl.
      eexists. split; [reflexivity|]. intros _. eexists. split; [reflexivity|].
      intros k. apply dict_mem_keys.
    - exists []. split; [reflexivity|]. discriminate. }
  destruct K as [subkeys [-> Hrec]]. cbn [rbind].
  destruct (merge_fold input_dict subkeys Hrec (dict_keys input_dict)
              default_template (fun k => dict_mem_keys k input_dict)
              template_invariant) as [d [H1 [_ H3]]].
  exists d. split; [exact H1|]. intros k Hk Ht.
  rewrite (H3 k Hk), existsb_keys, Ht, andb_true_r. unfold effective.
  destruct (dict_mem k input_dict) eqn:E.
  - destruct (dict_mem_get _ _ E) as [v ->]. reflexivity.
  - rewrite (dict_not_mem_get _ _ E).
    destruct (dict_mem_get _ _ Ht) as [v ->]. reflexivity.
Qed.

Lemma absent_effective : forall (k : string) (input_dict : dict),
  dict_get k default_template = Ok PyNone ->
  is_none (effective k input_dict) = absent k input_dict.
Proof.
  intros k input_dict H. unfold effective, absent.
  destruct (dict_get k input_dict); [reflexivity|]. rewrite H. reflexivity.
Qed.

Lemma effective_given : forall (k : string) (input_dict : dict) (v : value),
  dict_get k input_dict = Ok v -> effective k input_dict = v.
Proof. intros k input_dict v H. unfold effective. rewrite H. reflexivity. Qed.

(** Construction without a type, or with a reciprocal that is no
    dictionary, fails before the type is looked at. *)
Lemma new_without_type : forall input_dict : dict,
  dict_mem "type" input_dict = false -> new input_dict = Raise ValueError.
Proof.
  intros input_dict H. unfold new, __init__. rewrite H. reflexivity.
Qed.

Lemma new_bad_reciprocal : forall input_dict : dict,
  dict_mem "type" input_dict = true ->
  bad_reciprocal input_dict = true ->
  new input_dict = Raise AttributeError.
Proof.
  intros input_dict H B. unfold new, __init__. rewrite H. cbn [negb].
  unfold bind, liftR. rewrite (merged_bad_reciprocal input_dict B).
  reflexivity.
Qed.

(** Construction of a labeled dimension: past the merge, all depends on
    the labels. *)
Lemma new_labeled : forall input_dict : dict,
  dict_get "type" input_dict = Ok (PyStr "labeled") ->
  bad_reciprocal input_dict = false ->
  new input_dict
  = if is_none (effective "labels" input_dict) then Raise KeyError
    else rbind (Labeled.new (effective "labels" input_dict)
                  (effective "label" input_dict)
                  (effective "description" input_dict)
                  (effective "application" input_dict))
               (fun l => Ok (holding (LabeledSubtype l))).
Proof.
  intros input_dict Ht B.
  destruct (merged_ok input_dict B) as [d [Hd Hget]].
  unfold new, __init__. rewrite (dict_get_mem _ _ _ Ht). cbn [negb].
  unfold bind, liftR, ret, throw. rewrite Hd.
  rewrite !Hget by reflexivity.
  rewrite (effective_given _ _ _ Ht). cbn.
  destruct (is_none (effective "labels" input_dict)); [reflexivity|].
  destruct (Labeled.new _ _ _ _); reflexivity.
Qed.

Lemma labeled_new_raises : forall lb la de ap : value,
  raises (Labeled.new lb la de ap) = raises (py_len lb).
Proof.
  intros lb la de ap. unfold Labeled.new, Labeled.__init__, Labeled.set_labels.
  unfold bind, liftR, modify. destruct (py_len lb); reflexivity.
Qed.

Lemma new_monotonic : forall input_dict : dict,
  dict_get "type" input_dict = Ok (PyStr "monotonic") ->
  bad_reciprocal input_dict = false ->
  exists d,
    merged input_dict = Ok d
    /\ new input_dict
       = if is_none (effective "coordinates" input_dict) then Raise KeyError
         else rbind (Monotonic.new (effective "coordinates" input_dict) d)
                    (fun m => Ok (holding (MonotonicSubtype m))).
Proof.
  intros input_dict Ht B.
  destruct (merged_ok input_dict B) as [d [Hd Hget]].
  exists d. split; [exact Hd|].
  unfold new, __init__. rewrite (dict_get_mem _ _ _ Ht). cbn [negb].
  unfold bind, liftR, ret, throw. rewrite Hd.
  rewrite !Hget by reflexivity.
  rewrite (effective_given _ _ _ Ht). cbn.
  destruct (is_none (effective "coordinates" input_dict)); [reflexivity|].
  destruct (Monotonic.new _ _); reflexivity.
Qed.

Lemma new_linear : forall input_dict : dict,
  dict_get "type" input_dict = Ok (PyStr "linear") ->
  bad_reciprocal input_dict = false ->
  exists d,
    merged input_dict = Ok d
    /\ (forall k, String.eqb k "reciprocal" = false ->
          dict_mem k default_template = true ->
          dict_get k d = Ok (effective k input_dict))
    /\ new input_dict
       = rbind (linear d) (fun l => Ok (holding (LinearSubtype l))).
Proof.
  intros input_dict Ht B.
  destruct (merged_ok input_dict B) as [d [Hd Hget]].
  exists d. split; [exact Hd|]. split; [exact Hget|].
  unfold new, __init__. rewrite (dict_get_mem _ _ _ Ht). cbn [negb].
  unfold bind, liftR, ret, throw. rewrite Hd.
  rewrite !Hget by reflexivity.
  rewrite (effective_given _ _ _ Ht). cbn.
  destruct (linear d); reflexivity.
Qed.

(** A linear dimension is refused when increment or count is missing or
    the count is no positive integer. *)
Lemma linear_refuses : forall (d : dict) (increment count : value),
  dict_get "increment" d = Ok increment ->
  dict_get "count" d = Ok count ->
  (is_none increment || is_none count || negb (positive_integer count))%bool
  = true ->
  raises (linear d) = true.
Proof.
  intros d increment count Hi Hc H. unfold linear, check_missing.
  rewrite Hi. cbn [rbind].
  destruct (is_none increment); [reflexivity|].
  rewrite Hc. cbn [rbind].
  destruct (is_none count) eqn:En; [reflexivity|]. cbn [rbind].
  destruct count; try reflexivity; try discriminate.
  cbn [validate_int rbind]. unfold Linear.new. rewrite Hc.
  cbn [validate_int rbind]. cbn in H.
  destruct (0 <? n) eqn:E; [discriminate|].
  apply Z.ltb_ge in E.
  assert (E' : (n <? 1) = true) by (apply Z.ltb_lt; lia).
  rewrite E'. reflexivity.
Qed.

Lemma dict_get_raise_mem : forall (k : string) (d : dict) (e : exn),
  dict_get k d = Raise e -> dict_mem k d = false.
Proof.
  intros k d e H. destruct (dict_mem k d) eqn:E; [|reflexivity].
  destruct (dict_mem_get k d E) as [v Hv]. congruence.
Qed.

Lemma new_invalid_type : forall (input_dict : dict) (typ : value),
  dict_get "type" input_dict = Ok typ ->
  existsb (str_is typ) _valid_types = false ->
  raises (new input_dict) = true.
Proof.
  intros input_dict typ Ht Ev.
  destruct (bad_reciprocal input_dict) eqn:B.
  - rewrite (new_bad_reciprocal input_dict (dict_get_mem _ _ _ Ht) B).
    reflexivity.
  - destruct (merged_ok input_dict B) as [d [Hd Hget]].
    unfold new, __init__. rewrite (dict_get_mem _ _ _ Ht). cbn [negb].
    unfold bind, liftR, ret, throw. rewrite Hd.
    rewrite !Hget by reflexivity.
    rewrite (effective_given _ _ _ Ht). rewrite Ev. reflexivity.
Qed.

Lemma valid_type_cases : forall typ : value,
  existsb (str_is typ) _valid_types = true ->
  typ = PyStr "monotonic" \/ typ = PyStr "linear" \/ typ = PyStr "labeled".
Proof.
  intros typ H. destruct typ; try discriminate. cbn in H.
  destruct (String.eqb s "monotonic") eqn:E1;
    [apply String.eqb_eq in E1; subst; auto|].
  destruct (String.eqb s "linear") eqn:E2;
    [apply String.eqb_eq in E2; subst; auto|].
  destruct (String.eqb s "labeled") eqn:E3;
    [apply String.eqb_eq in E3; subst; auto|].
  discriminate.
Qed.

(** C4 (as amended).  Constructing a dimension fails, and gives no
    object, whenever the type is absent or none of the three literals,
    the labels of a labeled or the coordinates of a monotonic dimension
    are absent, or the increment or the count of a linear dimension is
    absent or its count no positive integer.  The converse does not
    hold. *)
Theorem construction_failures :
  forall input_dict : dict,
    listed_condition input_dict = true -> raises (new input_dict) = true.
Proof.
  intros input_dict. unfold listed_condition.
  destruct (dict_get "type" input_dict) as [typ|e] eqn:Ht.
  2:{ intros _. rewrite (new_without_type input_dict
                          (dict_get_raise_mem _ _ _ Ht)). reflexivity. }
  destruct (existsb (str_is typ) _valid_types) eqn:Ev.
  2:{ intros _. exact (new_invalid_type input_dict typ Ht Ev). }
  destruct (bad_reciprocal input_dict) eqn:B.
  { intros _.
    rewrite (new_bad_reciprocal input_dict (dict_get_mem _ _ _ Ht) B).
    reflexivity. }
  destruct (valid_type_cases typ Ev) as [-> | [-> | ->]]; cbn; intros H.
  - destruct (new_monotonic input_dict Ht B) as [d [_ ->]].
    rewrite (absent_effective "coordinates" input_dict eq_refl).
    rewrite orb_false_r in H. rewrite H. reflexivity.
  - destruct (new_linear input_dict Ht B) as [d [_ [Hget ->]]].
    assert (R : raises (linear d) = true).
    { apply (linear_refuses d (effective "increment" input_dict)
               (effective "count" input_dict)).
      - apply Hget; reflexivity.
      - apply Hget; reflexivity.
      - rewrite !absent_effective by reflexivity.
        destruct (absent "increment" input_dict); [reflexivity|].
        destruct (absent "count" input_dict); [reflexivity|].
        cbn in H |- *. unfold effective.
        destruct (dict_get "count" input_dict); [exact H|reflexivity]. }
    destruct (linear d); [discriminate|reflexivity].
  - rewrite (new_labeled input_dict Ht B).
    rewrite (absent_effective "labels" input_dict eq_refl).
    rewrite !orb_false_r in H. rewrite H. reflexivity.
Qed.

Lemma construction_failures_witness :
  listed_condition [("type", PyStr "linear"); ("increment", PyStr "5 G");
                    ("count", PyInt 0)] = true
  /\ raises (new [("type", PyStr "linear"); ("increment", PyStr "5 G");
                  ("count", PyInt 0)]) = true.
Proof.
  split; [reflexivity|].
  apply (construction_failures
           [("type", PyStr "linear"); ("increment", PyStr "5 G");
            ("count", PyInt 0)]).
  reflexivity.
Defined.

(** C4 (as stated) fails: a labeled dimension whose labels are the
    number 12 meets none of the listed conditions, and its construction
    fails all the same, with the type error of [len]. *)
Lemma construction_fails_unlisted :
  new Samples.twelve_dict = Raise TypeError
  /\ listed_condition Samples.twelve_dict = false
  /\ ~ (raises (new Samples.twelve_dict) = true
        <-> listed_condition Samples.twelve_dict = true).
Proof.
  split; [reflexivity|]. split; [reflexivity|].
  intros [H _]. specialize (H eq_refl). vm_compute in H. discriminate.
Qed.

(** A constructed dimension holds the subtype its dictionary names. *)
Lemma new_holds_its_type :
  forall (input_dict : dict) (d : Dimension),
    new input_dict = Ok d ->
    exists t, snd (type d) = Ok t /\ dict_get "type" input_dict = Ok (PyStr t).
Proof.
  intros input_dict d H.
  destruct (dict_get "type" input_dict) as [typ|e] eqn:Ht.
  2:{ rewrite (new_without_type input_dict (dict_get_raise_mem _ _ _ Ht)) in H.
      discriminate. }
  destruct (existsb (str_is typ) _valid_types) eqn:Ev.
  2:{ pose proof (new_invalid_type input_dict typ Ht Ev) as R.
      rewrite H in R. discriminate. }
  destruct (bad_reciprocal input_dict) eqn:B.
  { rewrite (new_bad_reciprocal input_dict (dict_get_mem _ _ _ Ht) B) in H.
    discriminate. }
  destruct (valid_type_cases typ Ev) as [-> | [-> | ->]].
  - destruct (new_monotonic input_dict Ht B) as [d0 [_ E]]. rewrite E in H.
    destruct (is_none _); [discriminate|].
    destruct (Monotonic.new _ _); [|discriminate].
    inversion H. exists "monotonic". split; reflexivity.
  - destruct (new_linear input_dict Ht B) as [d0 [_ [_ E]]]. rewrite E in H.
    destruct (linear d0); [|discriminate].
    inversion H. exists "linear". split; reflexivity.
  - rewrite (new_labeled input_dict Ht B) in H.
    destruct (is_none _); [discriminate|].
    destruct (Labeled.new _ _ _ _); [|discriminate].
    inversion H. exists "labeled". split; reflexivity.
Qed.

(* ================================================================== *)
(** * Further properties of the code *)
(* ================================================================== *)

(** ** Construction: which error, and what is stored *)

Lemma linear_missing_key : forall (d : dict) (increment count : value),
  dict_get "increment" d = Ok increment ->
  dict_get "count" d = Ok count ->
  (is_none increment || is_none count)%bool = true ->
  linear d = Raise KeyError.
Proof.
  intros d increment count Hi Hc H. unfold linear, check_missing.
  rewrite Hi. cbn [rbind].
  destruct (is_none increment); [reflexivity|].
  rewrite Hc. cbn [rbind]. cbn [orb] in H. rewrite H. reflexivity.
Qed.

(** X1.  The error of a failed construction, in the order the
    constructor checks: no type is a [ValueError]; then a reciprocal entry
    that is no dictionary is an [AttributeError], whatever the type; then
    a type that is none of the three literals is a [ValueError]; then a
    missing required key is a [KeyError], and labels without a length are
    the [TypeError] of [len]. *)
Theorem construction_error_classes :
  forall input_dict : dict,
    (dict_mem "type" input_dict = false -> new input_dict = Raise ValueError)
    /\ (dict_mem "type" input_dict = true ->
        bad_reciprocal input_dict = true ->
        new input_dict = Raise AttributeError)
    /\ (forall typ,
          dict_get "type" input_dict = Ok typ ->
          bad_reciprocal input_dict = false ->
          existsb (str_is typ) _valid_types = false ->
          new input_dict = Raise ValueError)
    /\ (dict_get "type" input_dict = Ok (PyStr "labeled") ->
        bad_reciprocal input_dict = false ->
        (absent "labels" input_dict = true -> new input_dict = Raise KeyError)
        /\ (absent "labels" input_dict = false ->
            raises (py_len (effective "labels" input_dict)) = true ->
            new input_dict = Raise TypeError))
    /\ (dict_get "type" input_dict = Ok (PyStr "monotonic") ->
        bad_reciprocal input_dict = false ->
        absent "coordinates" input_dict = true ->
        new input_dict = Raise KeyError)
    /\ (dict_get "type" input_dict = Ok (PyStr "linear") ->
        bad_reciprocal input_dict = false ->
        (absent "increment" input_dict || absent "count" input_dict)%bool
        = true ->
        new input_dict = Raise KeyError).
Proof.
  intros input_dict.
  split; [|split; [|split; [|split; [|split]]]].
  - apply new_without_type.
  - apply new_bad_reciprocal.
  - intros typ Ht B Ev.
    destruct (merged_ok input_dict B) as [d [Hd Hget]].
    unfold new, __init__. rewrite (dict_get_mem _ _ _ Ht). cbn [negb].
    unfold bind, liftR, ret, throw. rewrite Hd.
    rewrite !Hget by reflexivity.
    rewrite (effective_given _ _ _ Ht). rewrite Ev. reflexivity.
  - intros Ht B. split.
    + intros A. rewrite (new_labeled input_dict Ht B).
      rewrite (absent_effective "labels" input_dict eq_refl), A. reflexivity.
    + intros A R. rewrite (new_labeled input_dict Ht B).
      rewrite (absent_effective "labels" input_dict eq_refl), A.
      unfold Labeled.new, Labeled.__init__, Labeled.set_labels.
      unfold bind, liftR, modify.
      destruct (py_len (effective "labels" input_dict)) as [n|e] eqn:E;
        [discriminate|].
      rewrite (py_len_raises_TypeError _ _ E). reflexivity.
  - intros Ht B A. destruct (new_monotonic input_dict Ht B) as [d [_ ->]].
    rewrite (absent_effective "coordinates" input_dict eq_refl), A.
    reflexivity.
  - intros Ht B A. destruct (new_linear input_dict Ht B) as [d [_ [Hget ->]]].
    rewrite (linear_missing_key d (effective "increment" input_dict)
               (effective "count" input_dict)); [reflexivity| | |].
    + apply Hget; reflexivity.
    + apply Hget; reflexivity.
    + rewrite !absent_effective by reflexivity. exact A.
Qed.

Lemma construction_error_classes_witness :
  new [("labels", PyList [PyStr "a"]); ("reciprocal", PyInt 5)]
  = Raise ValueError
  /\ new [("type", PyStr "nominal"); ("reciprocal", PyInt 5)]
     = Raise AttributeError
  /\ new [("type", PyStr "nominal")] = Raise ValueError
  /\ new [("type", PyStr "labeled"); ("labels", PyNone)] = Raise KeyError
  /\ new Samples.twelve_dict = Raise TypeError
  /\ new [("type", PyStr "monotonic"); ("values", PyList [PyStr "1 m"])]
     = Raise KeyError
  /\ new [("type", PyStr "linear"); ("count", PyInt 10)] = Raise KeyError.
Proof.
  split; [|split; [|split; [|split; [|split; [|split]]]]].
  - apply (proj1 (construction_error_classes
                    [("labels", PyList [PyStr "a"]); ("reciprocal", PyInt 5)])).
    reflexivity.
  - apply (proj1 (proj2 (construction_error_classes
                    [("type", PyStr "nominal"); ("reciprocal", PyInt 5)])));
      reflexivity.
  - apply (proj1 (proj2 (proj2 (construction_error_classes
                    [("type", PyStr "nominal")]))) (PyStr "nominal"));
      reflexivity.
  - apply (proj1 (proj1 (proj2 (proj2 (proj2 (construction_error_classes
                    [("type", PyStr "labeled"); ("labels", PyNone)]))))
                    eq_refl eq_refl)). reflexivity.
  - apply (proj2 (proj1 (proj2 (proj2 (proj2 (construction_error_classes
                    Samples.twelve_dict)))) eq_refl eq_refl)); reflexivity.
  - apply (proj1 (proj2 (proj2 (proj2 (proj2 (construction_error_classes
                    [("type", PyStr "monotonic");
                     ("values", PyList [PyStr "1 m"])]))))));
      reflexivity.
  - apply (proj2 (proj2 (proj2 (proj2 (proj2 (construction_error_classes
                    [("type", PyStr "linear"); ("count", PyInt 10)]))))));
      reflexivity.
Defined.

Lemma labeled_built :
  forall (input_dict : dict) (n : Z),
    dict_get "type" input_dict = Ok (PyStr "labeled") ->
    bad_reciprocal input_dict = false ->
    py_len (effective "labels" input_dict) = Ok n ->
    new input_dict
    = Ok (holding (LabeledSubtype
           (Labeled.mkLabeled (Some n)
              (Some (np_asarray (effective "labels" input_dict)))
              (Some (effective "label" input_dict))
              (Some (effective "description" input_dict))
              (Some (effective "application" input_dict))))).
Proof.
  intros input_dict n Ht B Hn. rewrite (new_labeled input_dict Ht B).
  destruct (is_none (effective "labels" input_dict)) eqn:E.
  - destruct (effective "labels" input_dict); discriminate.
  - unfold Labeled.new, Labeled.__init__, Labeled.set_labels.
    unfold bind, liftR, modify. rewrite Hn. reflexivity.
Qed.

(** X2.  A labeled dimension whose labels are a list of labels is
    constructed, and holds the labels as an array, their number as the
    count, and label, description and application as given or, when not
    given, the empty string, the empty string and the empty dictionary.
    Nothing is checked on the way, and no other key of the dictionary
    plays a part: two dictionaries that agree on these entries build the
    same dimension. *)
Theorem new_labeled_state :
  forall (input_dict : dict) (items : list value),
    dict_get "type" input_dict = Ok (PyStr "labeled") ->
    bad_reciprocal input_dict = false ->
    effective "labels" input_dict = PyList items ->
    label_list items = true ->
    new input_dict
    = Ok (holding (LabeledSubtype
           (Labeled.mkLabeled (Some (Z.of_nat (List.length items)))
              (Some (PyArray (PyList items)))
              (Some (effective "label" input_dict))
              (Some (effective "description" input_dict))
              (Some (effective "application" input_dict)))))
    /\ forall other : dict,
         dict_get "type" other = Ok (PyStr "labeled") ->
         bad_reciprocal other = false ->
         effective "labels" other = PyList items ->
         effective "label" other = effective "label" input_dict ->
         effective "description" other = effective "description" input_dict ->
         effective "application" other = effective "application" input_dict ->
         new other = new input_dict.
Proof.
  intros input_dict items Ht B E _.
  assert (Hn : py_len (effective "labels" input_dict)
               = Ok (Z.of_nat (List.length items))).
  { rewrite E. reflexivity. }
  pose proof (labeled_built input_dict _ Ht B Hn) as N.
  rewrite E in N. cbn [np_asarray] in N. split.
  - exact N.
  - intros other Ht' B' E1 E2 E3 E4.
    assert (Hn' : py_len (effective "labels" other)
                  = Ok (Z.of_nat (List.length items))).
    { rewrite E1. reflexivity. }
    rewrite N, (labeled_built other _ Ht' B' Hn').
    rewrite E1, E2, E3, E4. reflexivity.
Qed.

Lemma new_labeled_state_witness :
  label_list [PyStr "Cu"; PyStr "Ag"] = true
  /\ new [("type", PyStr "labeled"); ("count", PyInt 7);
          ("labels", PyList [PyStr "Cu"; PyStr "Ag"]); ("label", PyInt 3);
          ("colour", PyStr "red")]
     = Ok (holding (LabeledSubtype
            (Labeled.mkLabeled (Some 2)
               (Some (PyArray (PyList [PyStr "Cu"; PyStr "Ag"])))
               (Some (PyInt 3)) (Some (PyStr "")) (Some (PyDict [])))))
  /\ new [("labels", PyList [PyStr "Cu"; PyStr "Ag"]);
          ("type", PyStr "labeled"); ("label", PyInt 3)]
     = new [("type", PyStr "labeled"); ("count", PyInt 7);
            ("labels", PyList [PyStr "Cu"; PyStr "Ag"]); ("label", PyInt 3);
            ("colour", PyStr "red")].
Proof.
  split; [reflexivity|]. split.
  - apply (proj1 (new_labeled_state
             [("type", PyStr "labeled"); ("count", PyInt 7);
              ("labels", PyList [PyStr "Cu"; PyStr "Ag"]); ("label", PyInt 3);
              ("colour", PyStr "red")]
             [PyStr "Cu"; PyStr "Ag"] eq_refl eq_refl eq_refl eq_refl)).
  - apply (proj2 (new_labeled_state
             [("type", PyStr "labeled"); ("count", PyInt 7);
              ("labels", PyList [PyStr "Cu"; PyStr "Ag"]); ("label", PyInt 3);
              ("colour", PyStr "red")]
             [PyStr "Cu"; PyStr "Ag"] eq_refl eq_refl eq_refl eq_refl)
             [("labels", PyList [PyStr "Cu"; PyStr "Ag"]);
              ("type", PyStr "labeled"); ("label", PyInt 3)]);
      reflexivity.
Defined.

(** ** The subtype of a dimension *)

(** X3.  A constructed dimension holds a subtype, and the type it reports
    is the [type] entry of the dictionary it was built from, one of the
    three literals. *)
Theorem new_type_tag :
  forall (input_dict : dict) (d : Dimension),
    new input_dict = Ok d ->
    exists (s : Subtype) (t : string),
      d = holding s
      /\ type d = (d, Ok t)
      /\ dict_get "type" input_dict = Ok (PyStr t)
      /\ In t _valid_types.
Proof.
  intros input_dict d H.
  destruct (new_holds_its_type input_dict d H) as [t [Ht Hd]].
  destruct d as [[s|]]; [|discriminate].
  exists s, t. split; [reflexivity|].
  destruct s; simpl in Ht; inversion Ht; subst t; simpl; auto 6.
Qed.

Lemma new_type_tag_witness :
  exists (s : Subtype) (t : string),
    holding (LabeledSubtype Samples.gold) = holding s
    /\ type (holding (LabeledSubtype Samples.gold))
       = (holding (LabeledSubtype Samples.gold), Ok t)
    /\ dict_get "type" Samples.gold_dict = Ok (PyStr t)
    /\ In t _valid_types.
Proof.
  apply (new_type_tag Samples.gold_dict (holding (LabeledSubtype Samples.gold))).
  reflexivity.
Defined.

Ltac plain_head p :=
  lazymatch p with
  | ?f ?x => plain_head f; plain_head x
  | (fun _ => _) => idtac
  | _ => first [is_const p | is_var p | is_constructor p | is_ind p]
  end.

Ltac crush_state :=
  repeat (simpl;
          match goal with
          | |- context [let (_, _) := ?p in _] => plain_head p; destruct p
          | |- context [match ?r with Ok _ => _ | Raise _ => _ end] =>
              plain_head r; destruct r
          | |- context [if ?b then _ else _] => plain_head b; destruct b
          | |- context [match ?o with Some _ => _ | None => _ end] =>
              plain_head o; destruct o
          | |- context [match ?l with [] => _ | _ :: _ => _ end] =>
              plain_head l; destruct l
          end); simpl; try reflexivity.

Section TypeIsKept.

Variable linear_class : Attributes.subtype_class Linear.LinearDimension.
Variable monotonic_class : Attributes.subtype_class Monotonic.MonotonicDimension.

(** X4.  No assignment changes the type of a dimension: after
    [coordinates], [count] or [labels] was assigned, after any of the
    forwarding setters and after [to], the dimension reports the type it
    reported before, whether the assignment went through or raised. *)
Theorem setters_keep_type :
  forall (d : Dimension) (t : string) (v w : value) (a : Attributes.attribute),
    snd (type d) = Ok t ->
    snd (type (fst (set_coordinates v d))) = Ok t
    /\ snd (type (fst (set_count v d))) = Ok t
    /\ snd (type (fst (set_labels v d))) = Ok t
    /\ snd (type (fst (Attributes.subtype_setattr linear_class monotonic_class
                         a v d))) = Ok t
    /\ snd (type (fst (Attributes.to linear_class monotonic_class v w d)))
       = Ok t.
Proof.
  intros [[s|]] t v w a H; [|discriminate].
  assert (E : t = match s with
                  | LinearSubtype _ => Linear._type
                  | MonotonicSubtype _ => Monotonic._type
                  | LabeledSubtype _ => Labeled._type
                  end) by (destruct s; simpl in H; inversion H; reflexivity).
  subst t. clear H.
  split; [|split; [|split; [|split]]].
  - destruct s; unfold set_coordinates, set_subtype_values, set_subtype_labels,
      type, Monotonic.set_values, Labeled.set_labels; unfold_method;
      crush_state.
  - destruct s; unfold set_count, count, subtype__count, set_subtype__count,
      subtype__get_coordinates, type, Linear._get_coordinates,
      Labeled.read__count, Labeled.call_method; unfold_method; crush_state.
  - destruct s; unfold set_labels, set_subtype_labels,
      subtype__get_coordinates, Labeled.set_labels, Labeled.call_method;
      unfold_method; crush_state.
  - destruct s; unfold Attributes.subtype_setattr; unfold_method; crush_state.
  - destruct s; unfold Attributes.to, Attributes.subtype_call; unfold_method;
      crush_state.
Qed.

End TypeIsKept.

Lemma setters_keep_type_witness :
  snd (type (fst (set_count (PyInt 2) (holding (LabeledSubtype Samples.msta)))))
  = Ok "labeled".
Proof.
  apply (proj1 (proj2 (setters_keep_type
           (Attributes.silent_class _) (Attributes.silent_class _)
           (holding (LabeledSubtype Samples.msta)) "labeled"
           (PyInt 2) PyNone Attributes.Label eq_refl))).
Defined.

(** ** The setters and the dictionary of a labeled dimension *)

(** X5.  The [label] setter of a labeled dimension refuses a value that is
    no string with a [TypeError], the [description] setter with a
    [ValueError], and both leave the dimension as it was; a string is
    stored and the getter reads it back.  The [application] setter
    stores any value. *)
Theorem labeled_setters :
  forall (l : Labeled.LabeledDimension) (v : value),
    (isinstance_str v = false ->
       Labeled.set_label v l = (l, Raise TypeError)
       /\ Labeled.set_description v l = (l, Raise ValueError))
    /\ (isinstance_str v = true ->
       bind (Labeled.set_label v) (fun _ => Labeled.label) l
       = (Labeled.set__label v l, Ok (mkHandle v Fresh))
       /\ bind (Labeled.set_description v) (fun _ => Labeled.description) l
          = (Labeled.set__description v l, Ok (mkHandle v Fresh)))
    /\ bind (Labeled.set_application v) (fun _ => Labeled.application) l
       = (Labeled.set__application v l, Ok (mkHandle v Fresh)).
Proof.
  intros l v. split; [|split].
  - intros H. unfold Labeled.set_label, Labeled.set_description.
    rewrite H. split; reflexivity.
  - intros H. unfold Labeled.set_label, Labeled.set_description.
    rewrite H. split; reflexivity.
  - reflexivity.
Qed.

Lemma labeled_setters_witness :
  Labeled.set_description (PyInt 12) Samples.msta
  = (Samples.msta, Raise ValueError)
  /\ bind (Labeled.set_label (PyStr "labeled dimension"))
          (fun _ => Labeled.label) Samples.msta
     = (Labeled.set__label (PyStr "labeled dimension") Samples.msta,
        Ok (mkHandle (PyStr "labeled dimension") Fresh)).
Proof.
  split.
  - apply (proj2 (proj1 (labeled_setters Samples.msta (PyInt 12)) eq_refl)).
  - apply (proj1 (proj1 (proj2 (labeled_setters Samples.msta
                                  (PyStr "labeled dimension"))) eq_refl)).
Defined.

(** X6.  The dictionary of a labeled dimension is built without changing
    the dimension.  For a description of ASCII text and an array of
    labels it has the type first and the labels, as a list, last, and
    between them the description without the white space around it,
    unless nothing is left of it; a description that is no string makes
    the call fail with an [AttributeError]. *)
Theorem labeled_dictionary :
  forall l : Labeled.LabeledDimension,
    fst (Labeled._get_python_dictionary l) = l
    /\ (forall (s : string) (items : list value),
          Labeled._description l = Some (PyStr s) ->
          ascii_text s = true ->
          Labeled._labels l = Some (PyArray (PyList items)) ->
          label_list items = true ->
          snd (Labeled._get_python_dictionary l)
          = Ok (if String.eqb (lstrip (rstrip s)) ""
                then [("type", PyStr "labeled"); ("labels", PyList items)]
                else [("type", PyStr "labeled");
                      ("description", PyStr (lstrip (rstrip s)));
                      ("labels", PyList items)]))
    /\ (forall v : value,
          Labeled._description l = Some v ->
          isinstance_str v = false ->
          snd (Labeled._get_python_dictionary l) = Raise AttributeError).
Proof.
  intros [c lb la de ap]. split; [|split].
  - unfold Labeled._get_python_dictionary, Labeled.read_slot. unfold_method.
    crush_state.
  - intros s items Hd _ Hl _. simpl in Hd, Hl. subst de lb.
    unfold Labeled._get_python_dictionary, Labeled.read_slot. unfold_method.
    destruct (String.eqb (lstrip (rstrip s)) ""); reflexivity.
  - intros v Hd Hv. simpl in Hd. subst de.
    unfold Labeled._get_python_dictionary, Labeled.read_slot. unfold_method.
    destruct v; try discriminate; reflexivity.
Qed.

Lemma labeled_dictionary_witness :
  (ascii_text "  Far far away. " = true
   /\ label_list [PyStr "m"; PyStr "s"] = true
   /\ snd (Labeled._get_python_dictionary
             (Labeled.mkLabeled (Some 2)
                (Some (PyArray (PyList [PyStr "m"; PyStr "s"])))
                (Some (PyStr "x")) (Some (PyStr "  Far far away. "))
                (Some (PyDict [("k", PyInt 1)]))))
      = Ok [("type", PyStr "labeled"); ("description", PyStr "Far far away.");
            ("labels", PyList [PyStr "m"; PyStr "s"])])
  /\ snd (Labeled._get_python_dictionary
            (Labeled.mkLabeled (Some 2)
               (Some (PyArray (PyList [PyStr "m"; PyStr "s"])))
               (Some (PyStr "x")) (Some (PyInt 12)) (Some (PyDict []))))
     = Raise AttributeError.
Proof.
  split; [split; [reflexivity|split; [reflexivity|]]|].
  - apply (proj1 (proj2 (labeled_dictionary
             (Labeled.mkLabeled (Some 2)
                (Some (PyArray (PyList [PyStr "m"; PyStr "s"])))
                (Some (PyStr "x")) (Some (PyStr "  Far far away. "))
                (Some (PyDict [("k", PyInt 1)])))))
             "  Far far away. " [PyStr "m"; PyStr "s"]
             eq_refl eq_refl eq_refl eq_refl).
  - apply (proj2 (proj2 (labeled_dictionary
             (Labeled.mkLabeled (Some 2)
                (Some (PyArray (PyList [PyStr "m"; PyStr "s"])))
                (Some (PyStr "x")) (Some (PyInt 12)) (Some (PyDict [])))))
             (PyInt 12) eq_refl eq_refl).
Defined.

Section Unchecked.

Variable linear_dictionary : Linear.LinearDimension -> result dict.
Variable monotonic_dictionary : Monotonic.MonotonicDimension -> result dict.

(** X7.  The constructor does not run the checks of the setters: with
    a list of labels, a labeled dimension is built with a description
    that is no string, which the description setter refuses with a value
    error, and it is the later request for its dictionary that fails,
    with an [AttributeError]. *)
Theorem unchecked_description_breaks_dictionary :
  forall (input_dict : dict) (items : list value),
    dict_get "type" input_dict = Ok (PyStr "labeled") ->
    bad_reciprocal input_dict = false ->
    effective "labels" input_dict = PyList items ->
    label_list items = true ->
    isinstance_str (effective "description" input_dict) = false ->
    new input_dict
    = Ok (holding (LabeledSubtype
           (Labeled.mkLabeled (Some (Z.of_nat (List.length items)))
              (Some (PyArray (PyList items)))
              (Some (effective "label" input_dict))
              (Some (effective "description" input_dict))
              (Some (effective "application" input_dict)))))
    /\ forall d : Dimension,
         new input_dict = Ok d ->
         _get_python_dictionary linear_dictionary monotonic_dictionary d
         = (d, Raise AttributeError)
         /\ Attributes.set_description
              (Attributes.silent_class _) (Attributes.silent_class _)
              (effective "description" input_dict) d
            = (d, Raise ValueError).
Proof.
  intros input_dict items Ht B E _ Hd.
  assert (Hn : py_len (effective "labels" input_dict)
               = Ok (Z.of_nat (List.length items))).
  { rewrite E. reflexivity. }
  pose proof (labeled_built input_dict _ Ht B Hn) as N.
  rewrite E in N. cbn [np_asarray] in N.
  split; [exact N|].
  intros d Hnew. rewrite N in Hnew. inversion Hnew; subst d. split.
  - unfold _get_python_dictionary, Labeled._get_python_dictionary,
      Labeled.read_slot. unfold_method.
    destruct (effective "description" input_dict); try discriminate;
      reflexivity.
  - unfold Attributes.set_description, Attributes.subtype_setattr,
      Attributes.labeled_setattr, Labeled.set_description.
    unfold_method. rewrite Hd. reflexivity.
Qed.

End Unchecked.

Lemma unchecked_description_breaks_dictionary_witness :
  label_list [PyStr "a"] = true
  /\ new [("type", PyStr "labeled"); ("labels", PyList [PyStr "a"]);
          ("description", PyInt 12)]
     = Ok (holding (LabeledSubtype
            (Labeled.mkLabeled (Some 1) (Some (PyArray (PyList [PyStr "a"])))
               (Some (PyStr "")) (Some (PyInt 12)) (Some (PyDict [])))))
  /\ _get_python_dictionary (fun _ => Raise ValueError)
       (fun _ => Raise ValueError)
       (holding (LabeledSubtype
          (Labeled.mkLabeled (Some 1) (Some (PyArray (PyList [PyStr "a"])))
             (Some (PyStr "")) (Some (PyInt 12)) (Some (PyDict [])))))
     = (holding (LabeledSubtype
          (Labeled.mkLabeled (Some 1) (Some (PyArray (PyList [PyStr "a"])))
             (Some (PyStr "")) (Some (PyInt 12)) (Some (PyDict [])))),
        Raise AttributeError).
Proof.
  split; [reflexivity|]. split.
  - apply (proj1 (unchecked_description_breaks_dictionary
             (fun _ => Raise ValueError) (fun _ => Raise ValueError)
             [("type", PyStr "labeled"); ("labels", PyList [PyStr "a"]);
              ("description", PyInt 12)]
             [PyStr "a"] eq_refl eq_refl eq_refl eq_refl eq_refl)).
  - apply (proj1 (proj2 (unchecked_description_breaks_dictionary
             (fun _ => Raise ValueError) (fun _ => Raise ValueError)
             [("type", PyStr "labeled"); ("labels", PyList [PyStr "a"]);
              ("description", PyInt 12)]
             [PyStr "a"] eq_refl eq_refl eq_refl eq_refl eq_refl)
             _ eq_refl)).
Defined.

(** ** The way through the dictionary *)

Lemma rstrip_idempotent : forall s : string, rstrip (rstrip s) = rstrip s.
Proof.
  induction s as [|c r IH]; [reflexivity|].
  simpl. destruct (rstrip r) as [|c' r'] eqn:E.
  - destruct (is_space c) eqn:Ec; [reflexivity|]. simpl. rewrite Ec. reflexivity.
  - change (rstrip (String c (String c' r'))) with
      (match rstrip (String c' r') with
       | EmptyString => if is_space c then EmptyString else String c EmptyString
       | String a b => String c (String a b)
       end).
    rewrite IH. reflexivity.
Qed.

Lemma lstrip_idempotent : forall s : string, lstrip (lstrip s) = lstrip s.
Proof.
  induction s as [|c r IH]; [reflexivity|].
  simpl. destruct (is_space c) eqn:Ec; [exact IH|]. simpl. rewrite Ec.
  reflexivity.
Qed.

Lemma rstrip_lstrip : forall t : string,
  rstrip t = t -> rstrip (lstrip t) = lstrip t.
Proof.
  induction t as [|c r IH]; [reflexivity|].
  intros H. simpl. destruct (is_space c) eqn:Ec; [|exact H].
  apply IH. simpl in H. rewrite Ec in H.
  destruct (rstrip r) as [|c' r'] eqn:E; [discriminate|].
  inversion H. reflexivity.
Qed.

(** Stripping what was stripped changes nothing. *)
Lemma strip_idempotent : forall s : string,
  lstrip (rstrip (lstrip (rstrip s))) = lstrip (rstrip s).
Proof.
  intros s. rewrite (rstrip_lstrip (rstrip s) (rstrip_idempotent s)).
  apply lstrip_idempotent.
Qed.

Section Stable.

Variable linear_dictionary : Linear.LinearDimension -> result dict.
Variable monotonic_dictionary : Monotonic.MonotonicDimension -> result dict.

Let trip := round_trip linear_dictionary monotonic_dictionary.

(** The dimension built from the dictionary of a labeled dimension,
    whatever its slots hold. *)
Lemma round_trip_of_labeled :
  forall (c : option Z) (la ap : option value) (x : value) (s : string),
    trip (holding (LabeledSubtype
            (Labeled.mkLabeled c (Some (PyArray x)) la (Some (PyStr s)) ap)))
    = if is_none x then Raise KeyError
      else rbind (Labeled.new x (PyStr "") (PyStr (lstrip (rstrip s)))
                    (PyDict []))
                 (fun l => Ok (holding (LabeledSubtype l))).
Proof.
  intros c la ap x s.
  unfold trip, round_trip, _get_python_dictionary,
    Labeled._get_python_dictionary, Labeled.read_slot.
  unfold_method.
  destruct (String.eqb (lstrip (rstrip s)) "") eqn:E.
  - apply String.eqb_eq in E. rewrite E.
    destruct x as [| | | | | |y]; try reflexivity.
    destruct y; reflexivity.
  - destruct x as [| | | | | |y]; try reflexivity.
    destruct y; reflexivity.
Qed.

(** X8.  The way through the dictionary is stable after one pass: the
    labeled dimension built from the dictionary of a labeled dimension
    is built again, unchanged, from its own dictionary. *)
Theorem round_trip_is_stable :
  forall (l : Labeled.LabeledDimension) (d' : Dimension),
    trip (holding (LabeledSubtype l)) = Ok d' ->
    trip d' = Ok d'.
Proof.
  intros [c lb la de ap] d' H.
  assert (K : exists x s, lb = Some (PyArray x) /\ de = Some (PyStr s)).
  { unfold trip, round_trip, _get_python_dictionary,
      Labeled._get_python_dictionary, Labeled.read_slot in H.
    unfold_method.
    destruct de as [[| | |s| | |]|]; try discriminate.
    destruct lb as [[| | | | | |x]|]; try discriminate.
    eauto. }
  destruct K as [x [s [-> ->]]].
  rewrite round_trip_of_labeled in H.
  destruct (is_none x) eqn:N; [discriminate|].
  unfold Labeled.new, Labeled.__init__, Labeled.set_labels in H.
  unfold bind, liftR, modify in H.
  destruct (py_len x) as [n|e] eqn:L; [|discriminate].
  simpl in H. inversion H; subst d'. clear H.
  assert (A : exists y, np_asarray x = PyArray y /\ is_none y = false
                        /\ py_len y = Ok n /\ np_asarray y = PyArray y).
  { destruct x as [| | |s0|items|items|y]; try discriminate.
    - exists (PyStr s0). auto.
    - exists (PyList items). auto.
    - exists (PyDict items). auto.
    - destruct y as [| | | |items| |]; try discriminate.
      exists (PyList items). auto. }
  destruct A as [y [-> [Ny [Ly Ay]]]].
  pose proof (round_trip_of_labeled (Some n) (Some (PyStr ""))
                (Some (PyDict [])) y (lstrip (rstrip s))) as R.
  change (trip (holding (LabeledSubtype
            (Labeled.mkLabeled (Some n) (Some (PyArray y)) (Some (PyStr ""))
               (Some (PyStr (lstrip (rstrip s)))) (Some (PyDict [])))))
          = Ok (holding (LabeledSubtype
            (Labeled.mkLabeled (Some n) (Some (PyArray y)) (Some (PyStr ""))
               (Some (PyStr (lstrip (rstrip s)))) (Some (PyDict [])))))).
  rewrite R, Ny.
  unfold Labeled.new, Labeled.__init__, Labeled.set_labels.
  unfold bind, liftR, modify. rewrite Ly. simpl.
  rewrite strip_idempotent, Ay. reflexivity.
Qed.

(** X9.  The dictionary does not record a lowered count: after the count
    of a labeled dimension was set below the number of its labels, the
    dictionary is what it was before, all labels included. *)
Theorem dictionary_ignores_count :
  forall (l : Labeled.LabeledDimension) (c v : Z),
    Labeled._count l = Some c ->
    v < c ->
    snd (_get_python_dictionary linear_dictionary monotonic_dictionary
           (fst (set_count (PyInt v) (holding (LabeledSubtype l)))))
    = snd (_get_python_dictionary linear_dictionary monotonic_dictionary
             (holding (LabeledSubtype l)))
    /\ snd (count (fst (set_count (PyInt v) (holding (LabeledSubtype l)))))
       = Ok v.
Proof.
  intros [c0 lb la de ap] c v Hc Hv. simpl in Hc. inversion Hc; subst c0.
  assert (E : (v >? c) = false) by (rewrite Z.gtb_ltb; apply Z.ltb_ge; lia).
  assert (E' : (v <? c) = true) by (apply Z.ltb_lt; lia).
  assert (K : set_count (PyInt v)
                (holding (LabeledSubtype (Labeled.mkLabeled (Some c) lb la de ap)))
              = (holding (LabeledSubtype
                   (Labeled.mkLabeled (Some v) lb la de ap)),
                 Ok [Truncated c v])).
  { unfold set_count, count, subtype__count, type, set_subtype__count,
      Labeled.read__count.
    unfold_method. rewrite E; simpl; rewrite E'. reflexivity. }
  rewrite K. split; [|reflexivity].
  unfold _get_python_dictionary, Labeled._get_python_dictionary,
    Labeled.read_slot.
  unfold_method.
  destruct de as [dv|]; [|reflexivity]. simpl.
  destruct (py_strip dv); [|reflexivity]. simpl.
  destruct lb as [arr|]; [|reflexivity]. simpl.
  destruct (tolist arr); reflexivity.
Qed.

End Stable.

Lemma round_trip_is_stable_witness :
  round_trip (fun _ => Raise ValueError) (fun _ => Raise ValueError)
    (holding (LabeledSubtype
       (Labeled.mkLabeled (Some 3)
          (Some (PyArray (PyList [PyStr "Cu"; PyStr "Ag"; PyStr "Au"])))
          (Some (PyStr "")) (Some (PyStr "")) (Some (PyDict [])))))
  = Ok (holding (LabeledSubtype
       (Labeled.mkLabeled (Some 3)
          (Some (PyArray (PyList [PyStr "Cu"; PyStr "Ag"; PyStr "Au"])))
          (Some (PyStr "")) (Some (PyStr "")) (Some (PyDict []))))).
Proof.
  apply (round_trip_is_stable (fun _ => Raise ValueError)
           (fun _ => Raise ValueError) Samples.gold).
  reflexivity.
Defined.

Lemma dictionary_ignores_count_witness :
  snd (_get_python_dictionary (fun _ => Raise ValueError)
         (fun _ => Raise ValueError)
         (fst (set_count (PyInt 2) (holding (LabeledSubtype Samples.msta)))))
  = snd (_get_python_dictionary (fun _ => Raise ValueError)
           (fun _ => Raise ValueError) (holding (LabeledSubtype Samples.msta))).
Proof.
  apply (proj1 (dictionary_ignores_count (fun _ => Raise ValueError)
                  (fun _ => Raise ValueError) Samples.msta 4 2 eq_refl
                  ltac:(lia))).
Defined.

(** ** The count and the labels *)

Import Attributes.

(** The setters of a labeled dimension keep the count at the number of
    the labels, through any sequence of assignments. *)
Lemma assign_all_keeps_count :
  forall (todo : list assignment) (items : list value)
         (la de ap : option value),
    exists la' de' ap' : option value,
      assign_all todo
        (Labeled.mkLabeled (Some (Z.of_nat (List.length items)))
           (Some (PyArray (PyList items))) la de ap)
      = Labeled.mkLabeled
          (Some (Z.of_nat (List.length (last_labels todo items))))
          (Some (PyArray (PyList (last_labels todo items)))) la' de' ap'.
Proof.
  induction todo as [|a rest IH]; intros items la de ap.
  - exists la, de, ap. reflexivity.
  - destruct a as [v|v|v|xs]; cbn [assign_all assign last_labels].
    + unfold Labeled.set_label. destruct (isinstance_str v); apply IH.
    + unfold Labeled.set_description. destruct (isinstance_str v); apply IH.
    + apply IH.
    + apply IH.
Qed.

(** X10.  The count of a labeled dimension is the number of its labels,
    from the construction with a list of labels on and through every
    sequence of assignments to label, description, application and, of
    lists of labels, to the labels, whether an assignment is accepted
    or refused: the labels read back are the list last assigned, or
    else the list of the constructor, and the count read back is its
    length. *)
Theorem count_is_number_of_labels :
  forall (input_dict : dict) (items : list value) (todo : list assignment),
    dict_get "type" input_dict = Ok (PyStr "labeled") ->
    bad_reciprocal input_dict = false ->
    effective "labels" input_dict = PyList items ->
    label_list items = true ->
    forallb assigns_labels todo = true ->
    exists l : Labeled.LabeledDimension,
      new input_dict = Ok (holding (LabeledSubtype l))
      /\ snd (labels (holding (LabeledSubtype (assign_all todo l))))
         = Ok (mkHandle (PyArray (PyList (last_labels todo items))) Fresh)
      /\ snd (count (holding (LabeledSubtype (assign_all todo l))))
         = Ok (Z.of_nat (List.length (last_labels todo items))).
Proof.
  intros input_dict items todo Ht B E _ _.
  assert (Hn : py_len (effective "labels" input_dict)
               = Ok (Z.of_nat (List.length items))).
  { rewrite E. reflexivity. }
  pose proof (labeled_built input_dict _ Ht B Hn) as N.
  rewrite E in N. cbn [np_asarray] in N.
  eexists. split; [exact N|].
  destruct (assign_all_keeps_count todo items
              (Some (effective "label" input_dict))
              (Some (effective "description" input_dict))
              (Some (effective "application" input_dict)))
    as [la' [de' [ap' ->]]].
  split; reflexivity.
Qed.

Lemma count_is_number_of_labels_witness :
  exists l : Labeled.LabeledDimension,
    new Samples.msta_dict = Ok (holding (LabeledSubtype l))
    /\ snd (labels (holding (LabeledSubtype
              (assign_all [ToLabel (PyInt 3); ToLabels [PyStr "x"; PyStr "y"];
                           ToDescription (PyStr "two"); ToApplication PyNone]
                 l))))
       = Ok (mkHandle (PyArray (PyList [PyStr "x"; PyStr "y"])) Fresh)
    /\ snd (count (holding (LabeledSubtype
              (assign_all [ToLabel (PyInt 3); ToLabels [PyStr "x"; PyStr "y"];
                           ToDescription (PyStr "two"); ToApplication PyNone]
                 l))))
       = Ok 2.
Proof.
  apply (count_is_number_of_labels Samples.msta_dict
           [PyStr "m"; PyStr "s"; PyStr "t"; PyStr "a"]
           [ToLabel (PyInt 3); ToLabels [PyStr "x"; PyStr "y"];
            ToDescription (PyStr "two"); ToApplication PyNone]
           eq_refl eq_refl eq_refl eq_refl eq_refl).
Defined.

(** What the count setter does on a labeled dimension. *)
Lemma set_count_labeled :
  forall (c v : Z) (lb la de ap : option value),
    set_count (PyInt v)
      (holding (LabeledSubtype (Labeled.mkLabeled (Some c) lb la de ap)))
    = if v >? c
      then (holding (LabeledSubtype (Labeled.mkLabeled (Some c) lb la de ap)),
            Raise ValueError)
      else if v <? c
      then (holding (LabeledSubtype (Labeled.mkLabeled (Some v) lb la de ap)),
            Ok [Truncated c v])
      else (holding (LabeledSubtype (Labeled.mkLabeled (Some c) lb la de ap)),
            Ok []).
Proof.
  intros c v lb la de ap.
  unfold set_count, count, subtype__count, type, set_subtype__count,
    Labeled.read__count.
  unfold_method.
  destruct (v >? c); [reflexivity|]. simpl.
  destruct (v <? c); reflexivity.
Qed.

(** X11.  A lowered count cannot be raised again: once the count of a
    labeled dimension was set below its value, setting it back to that
    value is refused with a value error, although no label was dropped.
    Setting the count to the value it has is accepted without a warning
    and changes nothing; assigning a list of labels to the coordinates
    afterwards sets the count anew, as if it had never been lowered. *)
Theorem lowered_count_stays :
  forall (l : Labeled.LabeledDimension) (c v : Z),
    Labeled._count l = Some c ->
    set_count (PyInt c) (holding (LabeledSubtype l))
    = (holding (LabeledSubtype l), Ok [])
    /\ (v < c ->
        let lowered := fst (set_count (PyInt v) (holding (LabeledSubtype l))) in
        set_count (PyInt c) lowered = (lowered, Raise ValueError)
        /\ snd (labels lowered) = snd (labels (holding (LabeledSubtype l)))
        /\ forall items : list value,
             label_list items = true ->
             set_coordinates (PyList items) lowered
             = set_coordinates (PyList items) (holding (LabeledSubtype l))
             /\ snd (count (fst (set_coordinates (PyList items) lowered)))
                = Ok (Z.of_nat (List.length items))).
Proof.
  intros [c0 lb la de ap] c v Hc. simpl in Hc. inversion Hc; subst c0.
  split.
  - rewrite set_count_labeled.
    assert (E : (c >? c) = false) by (rewrite Z.gtb_ltb; apply Z.ltb_irrefl).
    rewrite E, Z.ltb_irrefl. reflexivity.
  - intros Hv. cbv zeta. rewrite set_count_labeled.
    assert (E : (v >? c) = false) by (rewrite Z.gtb_ltb; apply Z.ltb_ge; lia).
    assert (E' : (v <? c) = true) by (apply Z.ltb_lt; lia).
    rewrite E, E'. cbn [fst]. split; [|split].
    + rewrite set_count_labeled.
      assert (G : (c >? v) = true) by (apply Z.gtb_lt; lia).
      rewrite G. reflexivity.
    + destruct lb; reflexivity.
    + intros items _. split; reflexivity.
Qed.

Lemma lowered_count_stays_witness :
  set_count (PyInt 4)
    (fst (set_count (PyInt 2) (holding (LabeledSubtype Samples.msta))))
  = (fst (set_count (PyInt 2) (holding (LabeledSubtype Samples.msta))),
     Raise ValueError)
  /\ snd (count (fst (set_coordinates (PyList [PyStr "x"; PyStr "y"; PyStr "z"])
                        (fst (set_count (PyInt 2)
                                (holding (LabeledSubtype Samples.msta)))))))
     = Ok 3.
Proof.
  split.
  - apply (proj1 (proj2 (lowered_count_stays Samples.msta 4 2 eq_refl)
                    ltac:(lia))).
  - apply (proj2 (proj2 (proj2 (proj2 (lowered_count_stays Samples.msta 4 2
                                         eq_refl)
                                  ltac:(lia)))
                    [PyStr "x"; PyStr "y"; PyStr "z"] eq_refl)).
Defined.

(** ** A labeled dimension behind the facade *)

(** The read of the coordinates, which the absolute coordinates start
    with, fails on a labeled dimension. *)
Lemma coordinates_of_labeled_raises_again :
  forall l : Labeled.LabeledDimension,
    coordinates {| subtype := Some (LabeledSubtype l) |}
    = ({| subtype := Some (LabeledSubtype l) |}, Raise AttributeError).
Proof.
  intros [c lb la de ap]. unfold coordinates, subtype__count.
  destruct c as [n|]; reflexivity.
Qed.

Section BehindTheFacade.

Variable linear_class : subtype_class Linear.LinearDimension.
Variable monotonic_class : subtype_class Monotonic.MonotonicDimension.
Variable _axis_label : obj -> obj -> result value.

(** X12.  A labeled dimension is not quantitative, and nothing
    quantitative can be read from it or assigned to it: [is_quantitative]
    answers false; reading [fft_output_order], [increment],
    [coordinates_offset], [origin_offset], [period], [quantity_name],
    [reciprocal] or [absolute_coordinates], assigning any of the first
    six, and calling [to] all raise [AttributeError] and leave the
    dimension as it was. *)
Theorem labeled_is_not_quantitative :
  forall (l : Labeled.LabeledDimension) (v w : value),
    let d := holding (LabeledSubtype l) in
    is_quantitative linear_class monotonic_class d
    = (d, Ok (OValue (PyBool false)))
    /\ (forall getter,
          In getter
             [fft_output_order linear_class monotonic_class;
              increment linear_class monotonic_class;
              coordinates_offset;
              origin_offset linear_class monotonic_class;
              period linear_class monotonic_class;
              quantity_name linear_class monotonic_class;
              reciprocal linear_class monotonic_class;
              absolute_coordinates linear_class monotonic_class] ->
          getter d = (d, Raise AttributeError))
    /\ (forall setter,
          In setter
             [set_fft_output_order linear_class monotonic_class;
              set_increment linear_class monotonic_class;
              set_coordinates_offset linear_class monotonic_class;
              set_origin_offset linear_class monotonic_class;
              set_period linear_class monotonic_class;
              set_quantity_name linear_class monotonic_class] ->
          setter v d = (d, Raise AttributeError))
    /\ to linear_class monotonic_class v w d = (d, Raise AttributeError).
Proof.
  intros l v w. cbv zeta. split; [|split; [|split]].
  - reflexivity.
  - intros getter H. simpl in H.
    destruct H as [<-|[<-|[<-|[<-|[<-|[<-|[<-|[<-|[]]]]]]]]]; try reflexivity.
    unfold absolute_coordinates. unfold_method.
    rewrite coordinates_of_labeled_raises_again. reflexivity.
  - intros setter H. simpl in H.
    destruct H as [<-|[<-|[<-|[<-|[<-|[<-|[]]]]]]]; reflexivity.
  - reflexivity.
Qed.

(** X13.  The axis label of a labeled dimension is its label: the subtype
    has no quantity name, so neither the unit nor [_axis_label] is
    consulted.  The facade's [label] setter refuses a value that is no
    string with a [TypeError] and changes nothing; a string is stored,
    and label and axis label read it from then on. *)
Theorem axis_label_of_labeled :
  forall (l : Labeled.LabeledDimension) (v : value),
    (forall la, Labeled._label l = Some la ->
       axis_label linear_class monotonic_class _axis_label
         (holding (LabeledSubtype l))
       = (holding (LabeledSubtype l), Ok (OValue la)))
    /\ (isinstance_str v = false ->
        set_label linear_class monotonic_class v (holding (LabeledSubtype l))
        = (holding (LabeledSubtype l), Raise TypeError))
    /\ (isinstance_str v = true ->
        let d' := holding (LabeledSubtype (Labeled.set__label v l)) in
        set_label linear_class monotonic_class v (holding (LabeledSubtype l))
        = (d', Ok tt)
        /\ label d' = (d', Ok (mkHandle v Fresh))
        /\ axis_label linear_class monotonic_class _axis_label d'
           = (d', Ok (OValue v))).
Proof.
  intros [c lb la0 de ap] v. split; [|split].
  - intros la H. simpl in H. subst la0. reflexivity.
  - intros H. unfold set_label, subtype_setattr, labeled_setattr,
      Labeled.set_label. unfold_method. rewrite H. reflexivity.
  - intros H. cbv zeta. unfold set_label, subtype_setattr, labeled_setattr,
      Labeled.set_label. unfold_method. rewrite H. repeat split.
Qed.

End BehindTheFacade.

Lemma labeled_is_not_quantitative_witness :
  origin_offset (silent_class _) (silent_class _)
    (holding (LabeledSubtype Samples.msta))
  = (holding (LabeledSubtype Samples.msta), Raise AttributeError)
  /\ set_increment (silent_class _) (silent_class _) (PyStr "5 G")
       (holding (LabeledSubtype Samples.msta))
     = (holding (LabeledSubtype Samples.msta), Raise AttributeError).
Proof.
  split.
  - apply (proj1 (proj2 (labeled_is_not_quantitative
                           (silent_class _) (silent_class _)
                           Samples.msta (PyStr "5 G") PyNone))).
    simpl. auto.
  - apply (proj1 (proj2 (proj2 (labeled_is_not_quantitative
                                  (silent_class _) (silent_class _)
                                  Samples.msta (PyStr "5 G") PyNone)))).
    simpl. auto.
Defined.

Lemma axis_label_of_labeled_witness :
  axis_label (silent_class _) (silent_class _) (fun _ _ => Raise ValueError)
    (holding (LabeledSubtype Samples.gold))
  = (holding (LabeledSubtype Samples.gold), Ok (OValue (PyStr "metal")))
  /\ set_label (silent_class _) (silent_class _) (PyDict [])
       (holding (LabeledSubtype Samples.gold))
     = (holding (LabeledSubtype Samples.gold), Raise TypeError).
Proof.
  split.
  - apply (proj1 (axis_label_of_labeled (silent_class _) (silent_class _)
                    (fun _ _ => Raise ValueError) Samples.gold PyNone)).
    reflexivity.
  - apply (proj1 (proj2 (axis_label_of_labeled
                           (silent_class _) (silent_class _)
                           (fun _ _ => Raise ValueError) Samples.gold
                           (PyDict [])))).
    reflexivity.
Defined.

(** ** What the facade hands out *)

(** X14.  Behind the facade, [labels], [label] and [description] of a
    labeled dimension hand out copies, so that a change made in place
    inside them leaves the dimension as it is; [application] hands out
    the stored dictionary itself, and a change made in place inside it
    is a change of the dimension, seen by every later read. *)
Theorem facade_copies_all_but_application :
  forall (l : Labeled.LabeledDimension) (h : handle) (p : path) (new : value),
    (forall getter,
       In getter [labels; label; description] ->
       snd (getter (holding (LabeledSubtype l))) = Ok h ->
       origin_of h = Fresh
       /\ Labeled.write_through h p new l = l)
    /\ (snd (application (holding (LabeledSubtype l))) = Ok h ->
        origin_of h = Stored "_application"
        /\ Labeled._application l = Some (content h)
        /\ snd (application
                  (holding (LabeledSubtype (Labeled.write_through h p new l))))
           = Ok (mkHandle (graft p new (content h)) (Stored "_application"))).
Proof.
  intros [c lb la de ap] h p new. split.
  - intros getter Hin H. simpl in Hin.
    assert (F : origin_of h = Fresh).
    { destruct Hin as [<-|[<-|[<-|[]]]];
        unfold labels, subtype_labels, label, description, Labeled.labels,
          Labeled.label, Labeled.description, Labeled.read_slot in H;
        unfold_method.
      - destruct lb; simpl in H; inversion H; reflexivity.
      - destruct la; simpl in H; inversion H; reflexivity.
      - destruct de; simpl in H; inversion H; reflexivity. }
    split; [exact F|]. apply write_through_fresh. exact F.
  - intros H. unfold application, Labeled.read_slot in H. unfold_method.
    destruct ap as [v|]; simpl in H; inversion H; subst h. simpl.
    repeat split.
Qed.

Lemma facade_copies_all_but_application_witness :
  Labeled.write_through
    (mkHandle (PyArray (PyList [PyStr "m"; PyStr "s"; PyStr "t"; PyStr "a"]))
       Fresh)
    [Data; Item 0] (PyStr "kg") Samples.msta
  = Samples.msta
  /\ snd (application
            (holding (LabeledSubtype
               (Labeled.write_through
                  (mkHandle (PyDict []) (Stored "_application")) []
                  (PyDict [("com.example.myApp", PyStr "x")]) Samples.msta))))
     = Ok (mkHandle (PyDict [("com.example.myApp", PyStr "x")])
             (Stored "_application")).
Proof.
  split.
  - apply (proj1 (facade_copies_all_but_application Samples.msta
             (mkHandle
                (PyArray (PyList [PyStr "m"; PyStr "s"; PyStr "t"; PyStr "a"]))
                Fresh)
             [Data; Item 0] (PyStr "kg")) labels).
    + simpl. auto.
    + reflexivity.
  - apply (proj2 (facade_copies_all_but_application Samples.msta
             (mkHandle (PyDict []) (Stored "_application")) []
             (PyDict [("com.example.myApp", PyStr "x")]))).
    reflexivity.
Defined.

(** ** The merge of the given dictionary into the defaults *)

Lemma dict_keys_set : forall (a : string) (v : value) (d : dict),
  dict_mem a d = true -> dict_keys (dict_set a v d) = dict_keys d.
Proof.
  intros a v d. induction d as [|[k' v'] d IH]; simpl; [discriminate|].
  destruct (String.eqb a k') eqn:E; simpl; [reflexivity|].
  intros H. rewrite IH by exact H. reflexivity.
Qed.

Lemma merge_reciprocal_content :
  forall (ir : dict) (ks : list string) (dr : dict),
    (forall k, In k ks -> dict_mem k ir = true) ->
    exists r,
      merge_reciprocal ks (PyDict ir) (PyDict dr) = Ok (PyDict r)
      /\ forall k, dict_get k r
                   = if existsb (String.eqb k) ks then dict_get k ir
                     else dict_get k dr.
Proof.
  intros ir ks. unfold merge_reciprocal.
  induction ks as [|a ks IH]; intros dr H.
  - exists dr. split; reflexivity.
  - destruct (dict_mem_get a ir (H a (or_introl eq_refl))) as [v Hv].
    cbn [fold_left rbind py_getitem py_setitem]. rewrite Hv. cbn [rbind].
    destruct (IH (dict_set a v dr)) as [r [H1 H2]].
    { intros k Hk. apply H. right. exact Hk. }
    exists r. split; [exact H1|]. intros k. rewrite H2. cbn [existsb].
    destruct (String.eqb k a) eqn:E; cbn [orb].
    + apply String.eqb_eq in E. subst k.
      rewrite dict_get_set_same, Hv.
      destruct (existsb (String.eqb a) ks); reflexivity.
    + rewrite dict_get_set_other by exact E. reflexivity.
Qed.

Lemma merge_fold_reciprocal :
  forall (input_dict ir : dict) (subkeys : list string),
    (dict_mem "reciprocal" input_dict = true ->
     dict_get "reciprocal" input_dict = Ok (PyDict ir)
     /\ forall k, existsb (String.eqb k) subkeys = dict_mem k ir) ->
    forall (ks : list string) (d0 : dict) (flag : bool),
      (forall k, In k ks -> dict_mem k input_dict = true) ->
      dict_keys d0 = dict_keys default_template ->
      (exists r, dict_get "reciprocal" d0 = Ok (PyDict r)
                 /\ forall k, dict_get k r
                              = if (flag && dict_mem k ir)%bool
                                then dict_get k ir
                                else dict_get k default_reciprocal) ->
      exists d,
        fold_left (merge_key input_dict subkeys) ks (Ok d0) = Ok d
        /\ dict_keys d = dict_keys default_template
        /\ exists r,
             dict_get "reciprocal" d = Ok (PyDict r)
             /\ forall k,
                  dict_get k r
                  = if ((flag || existsb (String.eqb "reciprocal") ks)
                        && dict_mem k ir)%bool
                    then dict_get k ir
                    else dict_get k default_reciprocal.
Proof.
  intros input_dict ir subkeys Hrec ks.
  induction ks as [|a ks IH]; intros d0 flag Hks Hkeys [r [Hr HR]].
  - exists d0. cbn [fold_left existsb]. rewrite orb_false_r. eauto.
  - assert (Ha : dict_mem a input_dict = true) by (apply Hks; left; reflexivity).
    assert (Hks' : forall k, In k ks -> dict_mem k input_dict = true)
      by (intros k Hk; apply Hks; right; exact Hk).
    cbn [fold_left existsb]. unfold merge_key at 2. cbn [rbind].
    destruct (dict_mem a d0) eqn:Hmem.
    + destruct (String.eqb a "reciprocal") eqn:Ea.
      * apply String.eqb_eq in Ea. subst a.
        destruct (Hrec Ha) as [Hir Hsub].
        rewrite Hr, Hir. cbn [rbind].
        destruct (merge_reciprocal_content ir subkeys r) as [r' [Hr' HR']].
        { intros k Hk. rewrite <- Hsub. apply existsb_exists.
          exists k. split; [exact Hk|apply String.eqb_refl]. }
        rewrite Hr'. cbn [rbind].
        destruct (IH (dict_set "reciprocal" (PyDict r') d0) true Hks')
          as [d [H1 [H2 [r2 [H3 H4]]]]].
        { rewrite dict_keys_set by exact Hmem. exact Hkeys. }
        { exists r'. split; [apply dict_get_set_same|].
          intros k. rewrite HR', Hsub, HR. cbn [andb].
          destruct (dict_mem k ir); [reflexivity|].
          rewrite andb_false_r. reflexivity. }
        exists d. split; [exact H1|]. split; [exact H2|].
        exists r2. split; [exact H3|]. intros k. rewrite H4.
        rewrite String.eqb_refl, orb_true_r. reflexivity.
      * destruct (dict_mem_get a input_dict Ha) as [v Hv].
        rewrite Hv. cbn [rbind].
        destruct (IH (dict_set a v d0) flag Hks') as [d [H1 [H2 [r2 [H3 H4]]]]].
        { rewrite dict_keys_set by exact Hmem. exact Hkeys. }
        { exists r. split; [|exact HR].
          rewrite dict_get_set_other; [exact Hr|].
          rewrite String.eqb_sym. exact Ea. }
        exists d. split; [exact H1|]. split; [exact H2|].
        exists r2. split; [exact H3|]. intros k. rewrite H4.
        rewrite (String.eqb_sym "reciprocal" a), Ea. reflexivity.
    + destruct (IH d0 flag Hks' Hkeys) as [d [H1 [H2 [r2 [H3 H4]]]]].
      { exists r. split; assumption. }
      exists d. split; [exact H1|]. split; [exact H2|].
      exists r2. split; [exact H3|]. intros k. rewrite H4.
      assert (E : String.eqb "reciprocal" a = false).
      { destruct (String.eqb "reciprocal" a) eqn:E; [|reflexivity].
        apply String.eqb_eq in E. subst a.
        rewrite (dict_get_mem _ _ _ Hr) in Hmem. discriminate. }
      rewrite E. reflexivity.
Qed.

(** X15.  What the constructor makes of the dictionary it is given: the
    merged dictionary has the keys of the defaults and no other, a key
    the defaults do not know being dropped; each key but
    [reciprocal] holds the given value, or the default when none was
    given; and the [reciprocal] entry holds every entry of the given
    reciprocal dictionary, known or not, over the defaults. *)
Theorem merge_of_the_given_dictionary :
  forall (input_dict d : dict),
    merged input_dict = Ok d ->
    dict_keys d = dict_keys default_template
    /\ (forall k, String.eqb k "reciprocal" = false ->
          dict_mem k default_template = true ->
          dict_get k d = Ok (effective k input_dict))
    /\ exists r,
         dict_get "reciprocal" d = Ok (PyDict r)
         /\ forall k,
              dict_get k r
              = match dict_get "reciprocal" input_dict with
                | Ok (PyDict ir) =>
                    if dict_mem k ir then dict_get k ir
                    else dict_get k default_reciprocal
                | _ => dict_get k default_reciprocal
                end.
Proof.
  intros input_dict d H.
  assert (B : bad_reciprocal input_dict = false).
  { destruct (bad_reciprocal input_dict) eqn:B; [|reflexivity].
    rewrite (merged_bad_reciprocal input_dict B) in H. discriminate. }
  destruct (merged_ok input_dict B) as [d1 [Hd1 Hget]].
  rewrite H in Hd1. inversion Hd1; subst d1. clear Hd1.
  split; [|split; [exact Hget|]].
  - unfold merged in H.
    destruct (dict_get "reciprocal" input_dict) as [v|e] eqn:E.
    + unfold bad_reciprocal in B. rewrite E in B.
      destruct v as [| | | | |ir|]; try discriminate.
      rewrite (dict_get_mem _ _ _ E) in H. cbn [rbind py_keys] in H.
      destruct (merge_fold_reciprocal input_dict ir (dict_keys ir)
                  (fun _ => conj E (fun k => existsb_keys k ir))
                  (dict_keys input_dict) default_template false
                  (fun k => dict_mem_keys k input_dict) eq_refl)
        as [d2 [H1 [H2 _]]].
      { eexists. split; [reflexivity|]. intros k. reflexivity. }
      rewrite H1 in H. inversion H; subst d2. exact H2.
    + assert (M : dict_mem "reciprocal" input_dict = false)
        by exact (dict_get_raise_mem _ _ _ E).
      rewrite M in H. cbn [rbind] in H.
      destruct (merge_fold_reciprocal input_dict [] []
                  (fun X => match Bool.diff_false_true
                                    (eq_trans (eq_sym M) X) with end)
                  (dict_keys input_dict) default_template false
                  (fun k => dict_mem_keys k input_dict) eq_refl)
        as [d2 [H1 [H2 _]]].
      { eexists. split; [reflexivity|]. intros k. reflexivity. }
      rewrite H1 in H. inversion H; subst d2. exact H2.
  - unfold merged in H.
    destruct (dict_get "reciprocal" input_dict) as [v|e] eqn:E.
    + unfold bad_reciprocal in B. rewrite E in B.
      destruct v as [| | | | |ir|]; try discriminate.
      rewrite (dict_get_mem _ _ _ E) in H. cbn [rbind py_keys] in H.
      destruct (merge_fold_reciprocal input_dict ir (dict_keys ir)
                  (fun _ => conj E (fun k => existsb_keys k ir))
                  (dict_keys input_dict) default_template false
                  (fun k => dict_mem_keys k input_dict) eq_refl)
        as [d2 [H1 [_ [r [H3 H4]]]]].
      { eexists. split; [reflexivity|]. intros k. reflexivity. }
      rewrite H1 in H. inversion H; subst d2.
      exists r. split; [exact H3|]. intros k. rewrite H4.
      rewrite existsb_keys, (dict_get_mem _ _ _ E). reflexivity.
    + assert (M : dict_mem "reciprocal" input_dict = false)
        by exact (dict_get_raise_mem _ _ _ E).
      rewrite M in H. cbn [rbind] in H.
      destruct (merge_fold_reciprocal input_dict [] []
                  (fun X => match Bool.diff_false_true
                                    (eq_trans (eq_sym M) X) with end)
                  (dict_keys input_dict) default_template false
                  (fun k => dict_mem_keys k input_dict) eq_refl)
        as [d2 [H1 [_ [r [H3 H4]]]]].
      { eexists. split; [reflexivity|]. intros k. reflexivity. }
      rewrite H1 in H. inversion H; subst d2.
      exists r. split; [exact H3|]. intros k. rewrite H4.
      rewrite existsb_keys, M. reflexivity.
Qed.

Lemma merge_of_the_given_dictionary_witness :
  exists d r,
    merged [("type", PyStr "labeled"); ("colour", PyStr "red");
            ("labels", PyList [PyStr "a"]);
            ("reciprocal", PyDict [("label", PyStr "k"); ("colour", PyInt 1)])]
    = Ok d
    /\ dict_keys d = dict_keys default_template
    /\ dict_get "reciprocal" d = Ok (PyDict r)
    /\ dict_get "colour" r = Ok (PyInt 1)
    /\ dict_get "label" r = Ok (PyStr "k")
    /\ dict_get "description" r = Ok (PyStr "").
Proof.
  destruct (merge_of_the_given_dictionary
              [("type", PyStr "labeled"); ("colour", PyStr "red");
               ("labels", PyList [PyStr "a"]);
               ("reciprocal",
                PyDict [("label", PyStr "k"); ("colour", PyInt 1)])]
              _ eq_refl) as [K [_ [r [R C]]]].
  eexists. exists r. split; [reflexivity|]. split; [exact K|].
  split; [exact R|]. split; [|split].
  - rewrite (C "colour"). reflexivity.
  - rewrite (C "label"). reflexivity.
  - rewrite (C "description"). reflexivity.
Defined.
